(** * The sample build harness ([build-samples.sh]), embedded in Rocq

    The harness is a bash script run under [set -e].  It discovers the
    sample directories with [find | sed], installs the root dependencies,
    builds every sample through a chain of fallback strategies, and prints
    a summary before it exits.

    The embedding follows the script line by line:
    - [Text]     : the text tools of the pipelines (lines, word splitting,
                   [grep], [sed], the patterns of [find]);
    - [Fs]       : directory trees and the two [find] invocations;
    - [Harness]  : the shell state, the [set -e] discipline and the script;
    - [Plan]     : the strategy list and the vocabulary of the design;
    - [Examples] : concrete samples and worlds;
    - [TextFacts], [FsFacts], [HarnessFacts] : lemmas;
    - [Claims]   : the properties of the harness, one theorem each.

    External programs ([npm], [npx tsc], [pushd]) are not part of the
    repository: their exit statuses and outputs come from a [World]. *)

From Stdlib Require Import ZArith Ascii String List Lia.
From stdpp Require Import gmap strings list fin_maps pretty.

Open Scope string_scope.

(** ** Text tools *)
Module Text.

Definition newline : ascii := Ascii.ascii_of_nat 10.
Definition tab : ascii := Ascii.ascii_of_nat 9.
Definition space : ascii := Ascii.ascii_of_nat 32.

Definition is_newline (c : ascii) : bool := Ascii.eqb c newline.

(** The default [IFS]: space, tab and newline. *)
Definition is_ifs (c : ascii) : bool :=
  Ascii.eqb c space || Ascii.eqb c tab || Ascii.eqb c newline.

(** [contains pat s]: [pat] occurs somewhere in [s]. *)
Fixpoint contains (pat s : string) : bool :=
  String.prefix pat s ||
  match s with
  | EmptyString => false
  | String _ s' => contains pat s'
  end.

(** [ends_with suf s]: [suf] is a suffix of [s]. *)
Fixpoint ends_with (suf s : string) : bool :=
  String.eqb suf s ||
  match s with
  | EmptyString => false
  | String _ s' => ends_with suf s'
  end.

(** The pieces of [s] between separator characters, empty pieces kept. *)
Fixpoint split_on (sep : ascii -> bool) (s : string) : list string :=
  match s with
  | EmptyString => [EmptyString]
  | String c s' =>
      if sep c then EmptyString :: split_on sep s'
      else match split_on sep s' with
           | w :: ws => String c w :: ws
           | [] => [String c EmptyString]
           end
  end.

Fixpoint drop_last_empty (l : list string) : list string :=
  match l with
  | [] => []
  | [EmptyString] => []
  | x :: r => x :: drop_last_empty r
  end.

(** The lines of a text: every line ends at a newline, and a last line
    without newline still counts. *)
Definition lines (text : string) : list string :=
  drop_last_empty (split_on is_newline text).

(** What a tool prints when it writes one line per item. *)
Fixpoint unlines (ls : list string) : string :=
  match ls with
  | [] => EmptyString
  | l :: r => l +:+ String newline (unlines r)
  end.

Definition nonempty (s : string) : bool :=
  match s with EmptyString => false | _ => true end.

(** Word splitting of an unquoted expansion on the default [IFS]:
    runs of blanks separate words and no empty word is produced. *)
Definition word_split (text : string) : list string :=
  List.filter nonempty (split_on is_ifs text).

(** A word undergoes pathname expansion when it has one of these. *)
Definition is_glob_meta (c : ascii) : bool :=
  Ascii.eqb c "*" || Ascii.eqb c "?" || Ascii.eqb c "[".

Fixpoint has_glob_meta (s : string) : bool :=
  match s with
  | EmptyString => false
  | String c s' => is_glob_meta c || has_glob_meta s'
  end.

(** [grep -q PATTERN] for a pattern without regex metacharacters:
    exit status 0 when some line contains the pattern, 1 otherwise. *)
Definition grep_q (pat text : string) : nat :=
  if existsb (contains pat) (lines text) then 0 else 1.

(** [grep -q .]: status 0 when some line has at least one character. *)
Definition grep_q_dot (text : string) : nat :=
  if existsb nonempty (lines text) then 0 else 1.

(** [head -1]: the first line only. *)
Definition head_1 (text : string) : string :=
  match lines text with
  | [] => EmptyString
  | l :: _ => l +:+ String newline EmptyString
  end.

(** The shell patterns of [find -name] and [find -path]: [*] stands for
    any run of characters (slashes and leading dots included), [?] for
    one character, anything else for itself.  The script's patterns use
    neither brackets nor backslashes. *)
Fixpoint fnmatch (pat : string) : string -> bool :=
  match pat with
  | EmptyString => fun s => negb (nonempty s)
  | String p pat' =>
      if Ascii.eqb p "*" then
        fix star (s : string) : bool :=
          fnmatch pat' s ||
          match s with
          | EmptyString => false
          | String _ s' => star s'
          end
      else
        fun s =>
          match s with
          | EmptyString => false
          | String c s' =>
              (Ascii.eqb p "?" || Ascii.eqb p c) && fnmatch pat' s'
          end
  end.

(** The regular expression of the script's [sed] command, read at the
    front of [s]: [.] stands for any one byte, every other character of
    the expression for itself.  The result is what follows the match.
    This is [sed] in the C locale, and [sed] in every locale on text in
    ASCII, where a character is a byte; in a UTF-8 locale [sed] takes a
    character of several bytes for one [.], which this does not. *)
Fixpoint regex_at (re s : string) : option string :=
  match re with
  | EmptyString => Some s
  | String r re' =>
      match s with
      | EmptyString => None
      | String c s' =>
          if Ascii.eqb r "." || Ascii.eqb r c then regex_at re' s' else None
      end
  end.

(** [sed 's|RE||']: the leftmost match of [RE] in the line is removed;
    a line without match is printed as it is. *)
Fixpoint sed_delete (re line : string) : string :=
  match regex_at re line with
  | Some rest => rest
  | None =>
      match line with
      | EmptyString => EmptyString
      | String c line' => String c (sed_delete re line')
      end
  end.

(** [sed] over a whole text, line by line. *)
Definition sed_text (re text : string) : string :=
  unlines (List.map (sed_delete re) (lines text)).

(** No match of the expression starts inside [d] when [d] is followed by
    [tail]. *)
Fixpoint no_early_match (re d tail : string) : bool :=
  match d with
  | EmptyString => true
  | String _ d' =>
      match regex_at re (d +:+ tail) with
      | None => no_early_match re d' tail
      | Some _ => false
      end
  end.

(** A pattern without [*] and [?]: it stands for itself. *)
Fixpoint literal (pat : string) : bool :=
  match pat with
  | EmptyString => true
  | String p pat' =>
      negb (Ascii.eqb p "*") && negb (Ascii.eqb p "?") && literal pat'
  end.

(** Every character of the string passes the test. *)
Fixpoint all_chars (ok : ascii -> bool) (s : string) : bool :=
  match s with
  | EmptyString => true
  | String c s' => ok c && all_chars ok s'
  end.

(** A string the shell leaves alone when it is expanded unquoted: no
    blank, no newline, no pattern character. *)
Definition plain (s : string) : bool :=
  all_chars (fun c => negb (is_ifs c) && negb (is_glob_meta c)) s.

End Text.

(** ** Directory trees and [find] *)
Module Fs.
Import Text.

(** A directory entry: a regular file, a directory with its entries in
    the order the file system lists them, or anything else (a symbolic
    link, a socket, ...).  For the last kind [to_file] tells whether it is
    a symbolic link that leads to a regular file. *)
#[local] Unset Elimination Schemes.
Inductive node : Type :=
| File (name : string)
| Dir (name : string) (entries : list node)
| Special (name : string) (to_file : bool).
#[local] Set Elimination Schemes.

Definition node_name (n : node) : string :=
  match n with
  | File name => name
  | Dir name _ => name
  | Special name _ => name
  end.

(** [find -type f]: symbolic links are not followed. *)
Definition is_regular (n : node) : bool :=
  match n with File _ => true | _ => false end.

(** The entry is a regular file once symbolic links are followed, as the
    [-f] of [test] wants it. *)
Definition leads_to_file (n : node) : bool :=
  match n with
  | File _ => true
  | Dir _ _ => false
  | Special _ to_file => to_file
  end.

Definition child_path (dir name : string) : string :=
  dir +:+ "/" +:+ name.

(** What [find] visits from a starting point: the starting point, then
    every entry below it, a directory before its contents.  Each visit
    carries the path [find] would print and the entry itself. *)
Fixpoint find_walk (path : string) (n : node) {struct n}
  : list (string * node) :=
  (path, n) ::
  match n with
  | Dir _ entries =>
      (fix below (es : list node) : list (string * node) :=
         match es with
         | [] => []
         | e :: es' =>
             (find_walk (child_path path (node_name e)) e ++ below es')%list
         end) entries
  | _ => []
  end.

Fixpoint lookup_entry (name : string) (es : list node) : option node :=
  match es with
  | [] => None
  | e :: es' =>
      if String.eqb (node_name e) name then Some e
      else lookup_entry name es'
  end.

(** [-name "package.json" -not -path "*/node_modules/*" -type f] *)
Definition is_manifest (visit : string * node) : bool :=
  fnmatch "package.json" (node_name visit.2)
  && negb (fnmatch "*/node_modules/*" visit.1)
  && is_regular visit.2.

(** Line 11, the [find] stage: run in a working directory with entries
    [cwd].  When there is no [samples] entry [find] prints nothing on
    its standard output. *)
Definition find_samples (cwd : list node) : list string :=
  match lookup_entry "samples" cwd with
  | None => []
  | Some start => List.map fst (List.filter is_manifest (find_walk "samples" start))
  end.

(** [-name "*.ts" -not -path "./node_modules/*"] *)
Definition is_ts_source (visit : string * node) : bool :=
  fnmatch "*.ts" (node_name visit.2)
  && negb (fnmatch "./node_modules/*" visit.1).

(** Lines 52 and 53, the [find] run inside a sample directory whose
    entries are [entries]. *)
Definition find_ts (entries : list node) : list string :=
  List.map fst (List.filter is_ts_source (find_walk "." (Dir "." entries))).

(** [[ -f NAME ]] in a directory with these entries. *)
Definition test_f (name : string) (entries : list node) : bool :=
  match lookup_entry name entries with
  | Some n => leads_to_file n
  | None => false
  end.

(** Induction on directory trees: a directory inherits from its entries. *)
Section NodeInduction.
Variable P : node -> Prop.
Hypothesis P_File : forall name, P (File name).
Hypothesis P_Special : forall name to_file, P (Special name to_file).
Hypothesis P_Dir : forall name entries, List.Forall P entries -> P (Dir name entries).

Fixpoint node_ind_entries (n : node) : P n :=
  match n with
  | File name => P_File name
  | Special name to_file => P_Special name to_file
  | Dir name entries =>
      P_Dir name entries
        ((fix all (es : list node) : List.Forall P es :=
            match es with
            | [] => @List.Forall_nil node P
            | e :: es' => @List.Forall_cons node P e es' (node_ind_entries e) (all es')
            end) entries)
  end.
End NodeInduction.

End Fs.

(** ** The harness *)
Module Harness.
Import Text Fs.

(** *** The world outside the script *)

(** The external commands the script starts. *)
Inductive command : Type :=
| FindSamples                      (* line 11: find samples ... | sed ... *)
| NpmCi                            (* lines 24 and 43: npm ci *)
| Pushd (dir : string)             (* line 40 *)
| Popd                             (* line 68 *)
| NpmRun                           (* line 44: npm run | grep -q "build" *)
| NpmRunBuild                      (* line 46: npm run build *)
| TscProject                       (* line 49: npx tsc --noEmit *)
| FindTs                           (* lines 52 and 53: find . -name "*.ts" ... *)
| TscFiles (files : list string).  (* line 53: npx tsc --noEmit --skipLibCheck FILES *)

(** What a run does that can be seen from outside: a line on standard
    output, or a command started in a directory ("." is the directory the
    script is started in). *)
Inductive event : Type :=
| Echo (line : string)
| Exec (dir : string) (c : command).

(** One sample directory as the script meets it. *)
Record UnitEnv : Type := {
  manifest_scripts : list (string * string); (* "scripts" of package.json: name, command *)
  pushd_status : nat;                        (* pushd "$sample" *)
  npm_ci_status : nat;                       (* npm ci in the sample *)
  npm_run_stdout : string;                   (* what npm run prints *)
  npm_run_build_status : nat;                (* npm run build *)
  unit_entries : list node;                  (* the directory once npm ci has run *)
  unit_glob : string -> list string;         (* pathname expansion of a word with a pattern character *)
  tsc_project_status : nat;                  (* npx tsc --noEmit *)
  tsc_files_status : list string -> nat      (* npx tsc --noEmit --skipLibCheck FILES *)
}.

Record World : Type := {
  root_entries : list node;                  (* the working directory at discovery *)
  root_glob : string -> list string;         (* pathname expansion of a word with a pattern character *)
  root_npm_ci_status : nat;                  (* npm ci at the root *)
  unit_env : string -> UnitEnv               (* what "$sample" leads to *)
}.

(** Pathname expansion of one word of an unquoted expansion: a word
    without pattern character stands for itself. *)
Definition expand_word (glob : string -> list string) (word : string)
  : list string :=
  if has_glob_meta word then glob word else [word].

(** Line 11: [samples=($(find ... | sed 's|/package.json||'))].  The output
    of the pipeline is split into words, and each word is expanded. *)
Definition discover (w : World) : list string :=
  flat_map (expand_word (root_glob w))
    (word_split
       (sed_text "/package.json" (unlines (find_samples (root_entries w))))).

(** *** Shell state and control *)

(** The variables of the script. *)
Record Vars : Type := {
  samples : list string;
  results : gmap string string;
  total_samples : Z;
  successful : Z;
  failed : Z
}.

Definition init_vars : Vars :=
  {| samples := []; results := ∅; total_samples := 0; successful := 0; failed := 0 |}.

(** A command either returns, or ends the shell with an exit code. *)
Inductive flow (A : Type) : Type :=
| Next (a : A)
| Exit (code : nat).
Arguments Next {A} a.
Arguments Exit {A} code.

(** A piece of script: from the variables to the events it causes, the
    variables after it, and how it ended. *)
Definition sh (A : Type) : Type := Vars -> list event * Vars * flow A.

Definition sh_ret {A : Type} (a : A) : sh A := fun v => ([], v, Next a).

Definition sh_bind {A B : Type} (m : sh A) (k : A -> sh B) : sh B :=
  fun v =>
    match m v with
    | (t1, v1, Next a) =>
        match k a v1 with
        | (t2, v2, r) => ((t1 ++ t2)%list, v2, r)
        end
    | (t1, v1, Exit code) => (t1, v1, Exit code)
    end.

Declare Scope sh_scope.
Delimit Scope sh_scope with sh.
Notation "x <- m ;; k" := (sh_bind m (fun x => k))
  (at level 100, m at next level, k at level 200, right associativity)
  : sh_scope.
Notation "m ;; k" := (sh_bind m (fun _ => k))
  (at level 100, k at level 200, right associativity) : sh_scope.
Open Scope sh_scope.

(** Reading the variables, as an expansion does. *)
Definition get_vars : sh Vars := fun v => ([], v, Next v).

(** [echo LINE]: always status 0. *)
Definition echo (line : string) : sh nat := fun v => ([Echo line], v, Next 0).

(** An external command with the status the world gives it. *)
Definition exec (dir : string) (c : command) (status : nat) : sh nat :=
  fun v => ([Exec dir c], v, Next status).

(** [exit CODE] *)
Definition exit {A : Type} (code : nat) : sh A := fun v => ([], v, Exit code).

(** Line 6, [set -e]: a command that is not part of a condition and
    returns a non-zero status ends the shell with that status. *)
Definition errexit (c : sh nat) : sh unit :=
  status <- c ;;
  if Nat.eqb status 0 then sh_ret tt else exit status.

(** [for x in LIST; do BODY; done] *)
Fixpoint for_each (l : list string) (body : string -> sh unit) : sh unit :=
  match l with
  | [] => sh_ret tt
  | x :: l' => body x ;; for_each l' body
  end.

(** Shell arithmetic is done on 64-bit signed integers. *)
Definition wrap64 (z : Z) : Z := ((z + 2 ^ 63) mod 2 ^ 64 - 2 ^ 63)%Z.

(** [((EXPR))] returns status 1 when the expression evaluates to 0, and
    status 0 otherwise. *)
Definition arith_status (value : Z) : nat :=
  if Z.eqb value 0 then 1 else 0.

(** Line 61, [((successful++))]: the value of the expression is the value
    of the variable before the increment.  The command is not part of a
    condition, so [set -e] applies to its status (bash 4.1 and later). *)
Definition incr_successful : sh nat :=
  fun v =>
    ([],
     {| samples := samples v; results := results v;
        total_samples := total_samples v;
        successful := wrap64 (successful v + 1); failed := failed v |},
     Next (arith_status (successful v))).

(** Line 65, [((failed++))]. *)
Definition incr_failed : sh nat :=
  fun v =>
    ([],
     {| samples := samples v; results := results v;
        total_samples := total_samples v;
        successful := successful v; failed := wrap64 (failed v + 1) |},
     Next (arith_status (failed v))).

(** Lines 60 and 64, [results["$sample"]=STATUS]. *)
Definition set_result (sample status : string) : sh nat :=
  fun v =>
    ([],
     {| samples := samples v; results := <[sample := status]> (results v);
        total_samples := total_samples v;
        successful := successful v; failed := failed v |},
     Next 0).

(** Line 11, the assignment of the array. *)
Definition set_samples (l : list string) : sh nat :=
  fun v =>
    ([Exec "." FindSamples],
     {| samples := l; results := results v;
        total_samples := total_samples v;
        successful := successful v; failed := failed v |},
     Next 0).

(** Lines 27 to 30. *)
Definition init_tracking : sh nat :=
  fun v =>
    ([],
     {| samples := samples v; results := ∅;
        total_samples := Z.of_nat (length (samples v));
        successful := 0; failed := 0 |},
     Next 0).

(** A top-level [echo] under [set -e]. *)
Definition say (line : string) : sh unit := errexit (echo line).

(** *** Lines 43 to 58: the condition of the build [if]

    Everything here is part of the test of an [if]: [set -e] is ignored,
    and the status of the last command run decides. *)

(** Lines 44 to 57, the group after [npm ci &&]. *)
Definition strategy_chain (dir : string) (u : UnitEnv) : sh nat :=
  exec dir NpmRun 0 ;;
  if Nat.eqb (grep_q "build" (npm_run_stdout u)) 0 then
    echo "  📝 Running npm run build" ;;
    exec dir NpmRunBuild (npm_run_build_status u)
  else if test_f "tsconfig.json" (unit_entries u) then
    echo "  🔧 Running TypeScript compiler" ;;
    exec dir TscProject (tsc_project_status u)
  else
    echo "  🔍 Checking TypeScript syntax" ;;
    exec dir FindTs 0 ;;
    if Nat.eqb (grep_q_dot (head_1 (unlines (find_ts (unit_entries u))))) 0 then
      exec dir FindTs 0 ;;
      let files :=
        flat_map (expand_word (unit_glob u))
          (word_split (unlines (find_ts (unit_entries u)))) in
      exec dir (TscFiles files) (tsc_files_status u files)
    else
      echo "  ℹ️ No TypeScript files found".

(** Line 43 to 58: [npm ci && { ...; }]. *)
Definition build_condition (dir : string) (u : UnitEnv) : sh nat :=
  status <- exec dir NpmCi (npm_ci_status u) ;;
  if Nat.eqb status 0 then strategy_chain dir u else sh_ret status.

(** *** Lines 37 to 69: the body of the build loop

    [popd] comes after a [pushd] that succeeded, and returns 0. *)
Definition build_sample (w : World) (sample : string) : sh unit :=
  let u := unit_env w sample in
  say ("🚀 Building: " +:+ sample) ;;
  say "----------------------------------------" ;;
  errexit (exec "." (Pushd sample) (pushd_status u)) ;;
  status <- build_condition sample u ;;
  (if Nat.eqb status 0 then
     say "  ✅ SUCCESS" ;;
     errexit (set_result sample "success") ;;
     errexit incr_successful
   else
     say "  ❌ FAILED" ;;
     errexit (set_result sample "failed") ;;
     errexit incr_failed) ;;
  errexit (exec sample Popd 0) ;;
  say "".

(** *** Lines 72 to 98: the summary and the exit code *)

(** Lines 83 to 88, for one sample. *)
Definition result_line (res : gmap string string) (sample : string) : string :=
  let status := default "" (res !! sample) in
  if String.eqb status "success" then "  ✅ " +:+ sample
  else "  ❌ " +:+ sample.

(** Lines 82 to 89. *)
Definition detailed_results : sh unit :=
  v <- get_vars ;;
  for_each (samples v) (fun sample => say (result_line (results v) sample)).

(** Lines 92 to 98. *)
Definition final_exit : sh unit :=
  v <- get_vars ;;
  if (0 <? failed v)%Z then
    say "⚠️ Some builds failed!" ;;
    exit 1
  else
    say "🎉 All builds successful!" ;;
    exit 0.

Definition summary_banner : string := "📊 BUILD SUMMARY".

Definition report : sh unit :=
  v <- get_vars ;;
  say "========================================" ;;
  say summary_banner ;;
  say "========================================" ;;
  say ("Total samples: " +:+ pretty (total_samples v)) ;;
  say ("Successful: ✅ " +:+ pretty (successful v)) ;;
  say ("Failed: ❌ " +:+ pretty (failed v)) ;;
  say "" ;;
  say "📝 Detailed Results:" ;;
  detailed_results ;;
  say "" ;;
  final_exit.

(** *** The script *)

(** Line 19, [printf '  - %s\n' "${samples[@]}"]: the format is used once
    for every element, and once with an empty argument when there is
    none. *)
Definition printf_samples (l : list string) : sh unit :=
  match l with
  | [] => say "  - "
  | _ => for_each l (fun s => say ("  - " +:+ s))
  end.

Definition main (w : World) : sh unit :=
  say "🔍 Discovering samples..." ;;
  errexit (set_samples (discover w)) ;;
  v <- get_vars ;;
  (if Nat.eqb (length (samples v)) 0 then
     say "❌ No samples found!" ;;
     exit 1
   else sh_ret tt) ;;
  say ("📋 Found " +:+ pretty (length (samples v)) +:+ " samples:") ;;
  printf_samples (samples v) ;;
  say "" ;;
  say "📦 Installing root dependencies..." ;;
  errexit (exec "." NpmCi (root_npm_ci_status w)) ;;
  errexit init_tracking ;;
  say "🔨 Building samples..." ;;
  say "" ;;
  for_each (samples v) (build_sample w) ;;
  report.

(** *** Observations on a run *)

Definition trace_of {A : Type} (r : list event * Vars * flow A) : list event := r.1.1.
Definition vars_of {A : Type} (r : list event * Vars * flow A) : Vars := r.1.2.
Definition flow_of {A : Type} (r : list event * Vars * flow A) : flow A := r.2.

(** A run of the script in a world. *)
Definition run (w : World) : list event * Vars * flow unit := main w init_vars.

(** The exit code of the process.  Every path through the script ends in
    an [exit] or under [set -e]; the other case is there for totality. *)
Definition exit_code (r : list event * Vars * flow unit) : nat :=
  match flow_of r with
  | Exit code => code
  | Next _ => 0
  end.

(** An event of the work on a sample: its start banner, or a command
    started for it. *)
Definition unit_event (e : event) : bool :=
  match e with
  | Echo line => String.prefix "🚀 Building: " line
  | Exec _ FindSamples => false
  | Exec dir NpmCi => negb (String.eqb dir ".")
  | Exec _ _ => true
  end.

(** The samples on which a run has started [pushd], in order, whether
    [pushd] succeeded or not. *)
Definition entered (t : list event) : list string :=
  flat_map (fun e => match e with Exec _ (Pushd dir) => [dir] | _ => [] end) t.

(** A build or type-check strategy at work. *)
Definition strategy_event (e : event) : bool :=
  match e with
  | Exec _ NpmRun | Exec _ NpmRunBuild | Exec _ TscProject
  | Exec _ FindTs | Exec _ (TscFiles _) => true
  | _ => false
  end.

(** One of the two type-check fallbacks at work. *)
Definition typecheck_event (e : event) : bool :=
  match e with
  | Exec _ TscProject | Exec _ FindTs | Exec _ (TscFiles _) => true
  | _ => false
  end.

(** The banner line of the summary block. *)
Definition summary_event (e : event) : bool :=
  match e with
  | Echo line => String.eqb line summary_banner
  | _ => false
  end.

End Harness.

(** ** The chain of the script as a list of rules

    The [if]/[elif] chain of the script ([Harness.strategy_chain]) read
    as an ordered list of rules, the first applicable one being used.  A
    rule applies when the probe of the script for it succeeds; the
    conditions of the design itself are in [Design]. *)
Module Plan.
Import Text Fs Harness.

Inductive strategy : Type :=
| ExplicitBuild      (* npm run build *)
| ProjectTypeCheck   (* npx tsc --noEmit, driven by tsconfig.json *)
| LenientTypeCheck   (* npx tsc --noEmit --skipLibCheck over the .ts files *)
| NoTypedSources.    (* nothing to check *)

(** In priority order. *)
Definition priority : list strategy :=
  [ExplicitBuild; ProjectTypeCheck; LenientTypeCheck; NoTypedSources].

(** When a rule applies to a sample. *)
Definition applicable (u : UnitEnv) (s : strategy) : bool :=
  match s with
  | ExplicitBuild => Nat.eqb (grep_q "build" (npm_run_stdout u)) 0
  | ProjectTypeCheck => test_f "tsconfig.json" (unit_entries u)
  | LenientTypeCheck =>
      match find_ts (unit_entries u) with [] => false | _ => true end
  | NoTypedSources => true
  end.

(** First match wins. *)
Definition first_applicable (u : UnitEnv) : strategy :=
  List.hd NoTypedSources (List.filter (applicable u) priority).

(** The arguments of the lenient type check: the typed sources found. *)
Definition lenient_files (u : UnitEnv) : list string :=
  flat_map (expand_word (unit_glob u))
    (word_split (unlines (find_ts (unit_entries u)))).

(** The exit status a strategy ends with. *)
Definition strategy_status (u : UnitEnv) (s : strategy) : nat :=
  match s with
  | ExplicitBuild => npm_run_build_status u
  | ProjectTypeCheck => tsc_project_status u
  | LenientTypeCheck => tsc_files_status u (lenient_files u)
  | NoTypedSources => 0
  end.

(** What is seen of a strategy in the sample directory [dir]: the probes
    that lead to it, its announcement, and its command. *)
Definition strategy_trace (dir : string) (u : UnitEnv) (s : strategy)
  : list event :=
  match s with
  | ExplicitBuild =>
      [Exec dir NpmRun; Echo "  📝 Running npm run build"; Exec dir NpmRunBuild]
  | ProjectTypeCheck =>
      [Exec dir NpmRun; Echo "  🔧 Running TypeScript compiler"; Exec dir TscProject]
  | LenientTypeCheck =>
      [Exec dir NpmRun; Echo "  🔍 Checking TypeScript syntax"; Exec dir FindTs;
       Exec dir FindTs; Exec dir (TscFiles (lenient_files u))]
  | NoTypedSources =>
      [Exec dir NpmRun; Echo "  🔍 Checking TypeScript syntax"; Exec dir FindTs;
       Echo "  ℹ️ No TypeScript files found"]
  end.

(** The manifest declares a script of this name. *)
Definition declares_script (u : UnitEnv) (name : string) : Prop :=
  In name (List.map fst (manifest_scripts u)).

(** What the script relies on when it greps the listing of [npm run]:
    every declared script is listed by name. *)
Definition npm_lists_scripts (u : UnitEnv) : Prop :=
  forall name, declares_script u name ->
    exists line, In line (lines (npm_run_stdout u)) /\ contains name line = true.

(** No entry named [tsconfig.json] of the directory is a regular file, or
    a link to one. *)
Definition no_tsconfig (entries : list node) : Prop :=
  forall n, In n entries -> node_name n = "tsconfig.json" -> leads_to_file n = false.

(** Every entry below the directory whose name ends in [.ts] lies in the
    dependency cache [./node_modules] of the directory. *)
Definition no_ts_outside_cache (entries : list node) : Prop :=
  forall path n, In (path, n) (find_walk "." (Dir "." entries)) ->
    ends_with ".ts" (node_name n) = true ->
    String.prefix "./node_modules/" path = true.

(** The status of the condition of the build [if] for a sample: the
    failed installation, or else the first applicable strategy. *)
Definition unit_status (u : UnitEnv) : nat :=
  if Nat.eqb (npm_ci_status u) 0 then strategy_status u (first_applicable u)
  else npm_ci_status u.

(** What is seen of that condition in the sample directory [dir]. *)
Definition unit_trace (dir : string) (u : UnitEnv) : list event :=
  Exec dir NpmCi ::
  (if Nat.eqb (npm_ci_status u) 0 then strategy_trace dir u (first_applicable u)
   else []).

(** How the work on a sample starts. *)
Definition unit_banner (sample : string) : list event :=
  [Echo ("🚀 Building: " +:+ sample);
   Echo "----------------------------------------";
   Exec "." (Pushd sample)].

(** The variables once lines 60 and 61 have recorded a success. *)
Definition record_success (sample : string) (v : Vars) : Vars :=
  {| samples := samples v;
     results := <[sample := "success"]> (results v);
     total_samples := total_samples v;
     successful := wrap64 (successful v + 1);
     failed := failed v |}.

(** The variables once lines 64 and 65 have recorded a failure. *)
Definition record_failure (sample : string) (v : Vars) : Vars :=
  {| samples := samples v;
     results := <[sample := "failed"]> (results v);
     total_samples := total_samples v;
     successful := successful v;
     failed := wrap64 (failed v + 1) |}.

(** The variables once lines 11 and 27 to 30 have run. *)
Definition tracking_vars (found : list string) : Vars :=
  {| samples := found;
     results := ∅;
     total_samples := Z.of_nat (length found);
     successful := 0;
     failed := 0 |}.

(** The variables once line 11 has run. *)
Definition discovered_vars (found : list string) : Vars :=
  {| samples := found;
     results := ∅;
     total_samples := 0;
     successful := 0;
     failed := 0 |}.

(** What a run shows up to the root installation (lines 8 to 24). *)
Definition run_header (found : list string) : list event :=
  ([Echo "🔍 Discovering samples..."; Exec "." FindSamples;
    Echo ("📋 Found " +:+ pretty (length found) +:+ " samples:")]
   ++ List.map (fun s => Echo ("  - " +:+ s)) found
   ++ [Echo ""; Echo "📦 Installing root dependencies..."; Exec "." NpmCi])%list.

(** The head of the summary block (lines 73 to 81). *)
Definition summary_head (v : Vars) : list event :=
  [Echo "========================================";
   Echo summary_banner;
   Echo "========================================";
   Echo ("Total samples: " +:+ pretty (total_samples v));
   Echo ("Successful: ✅ " +:+ pretty (successful v));
   Echo ("Failed: ❌ " +:+ pretty (failed v));
   Echo "";
   Echo "📝 Detailed Results:"].

(** The status lines of the summary block (lines 82 to 89). *)
Definition status_lines (res : gmap string string) (found : list string)
  : list event :=
  List.map (fun sample => Echo (result_line res sample)) found.

(** The status recorded for a sample ([None]: nothing recorded). *)
Definition outcome_of (v : Vars) (sample : string) : option string :=
  results v !! sample.

End Plan.

(** ** Concrete samples and worlds *)
Module Examples.
Import Text Fs Harness Plan.

(** Words without pattern character are all these examples have. *)
Definition no_glob (word : string) : list string := [word].

(** A sample with a build script and a compiler configuration. *)
Definition built_sample : UnitEnv :=
  {| manifest_scripts := [("build", "tsc")];
     pushd_status := 0;
     npm_ci_status := 0;
     npm_run_stdout := unlines ["Scripts available via `npm run-script`:"; "  build"; "    tsc"];
     npm_run_build_status := 0;
     unit_entries := [File "package.json"; File "tsconfig.json"; Dir "src" [File "index.ts"]];
     unit_glob := no_glob;
     tsc_project_status := 2;
     tsc_files_status := fun _ => 2 |}.

(** The same sample when its dependencies cannot be installed. *)
Definition uninstallable_sample : UnitEnv :=
  {| manifest_scripts := manifest_scripts built_sample;
     pushd_status := 0;
     npm_ci_status := 1;
     npm_run_stdout := npm_run_stdout built_sample;
     npm_run_build_status := 0;
     unit_entries := unit_entries built_sample;
     unit_glob := no_glob;
     tsc_project_status := 0;
     tsc_files_status := fun _ => 0 |}.

(** A sample with nothing to build or check: no script, no compiler
    configuration, and typed sources in the dependency cache only. *)
Definition bare_sample : UnitEnv :=
  {| manifest_scripts := [];
     pushd_status := 0;
     npm_ci_status := 0;
     npm_run_stdout := "";
     npm_run_build_status := 1;
     unit_entries :=
       [File "package.json"; File "index.js";
        Dir "node_modules" [Dir "left-pad" [File "index.d.ts"]]];
     unit_glob := no_glob;
     tsc_project_status := 1;
     tsc_files_status := fun _ => 1 |}.

(** The bare sample when its dependencies cannot be installed. *)
Definition bare_uninstallable_sample : UnitEnv :=
  {| manifest_scripts := [];
     pushd_status := 0;
     npm_ci_status := 1;
     npm_run_stdout := "";
     npm_run_build_status := 1;
     unit_entries := [File "package.json"; File "index.js"];
     unit_glob := no_glob;
     tsc_project_status := 1;
     tsc_files_status := fun _ => 1 |}.

(** A path that is no directory: [pushd] fails. *)
Definition no_such_sample : UnitEnv :=
  {| manifest_scripts := [];
     pushd_status := 1;
     npm_ci_status := 1;
     npm_run_stdout := "";
     npm_run_build_status := 1;
     unit_entries := [];
     unit_glob := no_glob;
     tsc_project_status := 1;
     tsc_files_status := fun _ => 1 |}.

(** [samples/a] and [samples/b], in this order. *)
Definition two_sample_tree : list node :=
  [File "package.json";
   Dir "samples" [Dir "a" [File "package.json"]; Dir "b" [File "package.json"]]].

(** Two samples, the first of which cannot install its dependencies. *)
Definition first_install_fails : World :=
  {| root_entries := two_sample_tree;
     root_glob := no_glob;
     root_npm_ci_status := 0;
     unit_env := fun sample =>
       if String.eqb sample "samples/a" then uninstallable_sample
       else if String.eqb sample "samples/b" then built_sample
       else no_such_sample |}.

(** Two samples that both build. *)
Definition two_good_samples : World :=
  {| root_entries := two_sample_tree;
     root_glob := no_glob;
     root_npm_ci_status := 0;
     unit_env := fun sample =>
       if String.eqb sample "samples/a" then built_sample
       else if String.eqb sample "samples/b" then built_sample
       else no_such_sample |}.

(** One sample that builds. *)
Definition one_good_sample : World :=
  {| root_entries := [File "package.json"; Dir "samples" [Dir "a" [File "package.json"]]];
     root_glob := no_glob;
     root_npm_ci_status := 0;
     unit_env := fun sample =>
       if String.eqb sample "samples/a" then built_sample else no_such_sample |}.

(** A [samples] directory without any manifest outside dependency caches. *)
Definition no_samples : World :=
  {| root_entries :=
       [File "package.json";
        Dir "samples" [File "README.md"; Dir "node_modules" [Dir "x" [File "package.json"]]]];
     root_glob := no_glob;
     root_npm_ci_status := 0;
     unit_env := fun _ => no_such_sample |}.

(** Two good samples, and a root [npm ci] that fails. *)
Definition root_install_fails : World :=
  {| root_entries := two_sample_tree;
     root_glob := no_glob;
     root_npm_ci_status := 1;
     unit_env := unit_env two_good_samples |}.

(** One sample in a directory whose name has a blank. *)
Definition blank_in_name : World :=
  {| root_entries := [Dir "samples" [Dir "my sample" [File "package.json"]]];
     root_glob := no_glob;
     root_npm_ci_status := 0;
     unit_env := fun sample =>
       if String.eqb sample "samples/my sample" then built_sample else no_such_sample |}.

(** A world with the single sample [samples/bare]. *)
Definition bare_world (u : UnitEnv) : World :=
  {| root_entries := [Dir "samples" [Dir "bare" [File "package.json"]]];
     root_glob := no_glob;
     root_npm_ci_status := 0;
     unit_env := fun sample =>
       if String.eqb sample "samples/bare" then u else no_such_sample |}.

(** One sample in a directory whose name looks like the manifest's. *)
Definition manifest_like_name : World :=
  {| root_entries := [Dir "samples" [Dir "package-json" [File "package.json"]]];
     root_glob := no_glob;
     root_npm_ci_status := 0;
     unit_env := fun sample =>
       if String.eqb sample "samples/package-json" then built_sample
       else no_such_sample |}.

(** The shell state when lines 27 to 30 have run for [samples/a] and
    [samples/b], and both have been recorded. *)
Definition recorded_vars : Vars :=
  {| samples := ["samples/a"; "samples/b"];
     results := <["samples/a" := "failed"]> (<["samples/b" := "success"]> ∅);
     total_samples := 2;
     successful := 1;
     failed := 1 |}.

End Examples.

(** ** The loop as a whole

    What lines 36 to 70 amount to for a list of samples, to be compared
    with the loop of the script. *)
Module Batch.
Import Text Fs Harness Plan.

(** The sample passes the condition of the build [if]. *)
Definition builds (w : World) (sample : string) : bool :=
  Nat.eqb (unit_status (unit_env w sample)) 0.

(** What lines 60 and 64 write into the table for a sample. *)
Definition expected_outcome (w : World) (sample : string) : string :=
  if builds w sample then "success" else "failed".

(** The variables once lines 59 to 66 have run for a sample. *)
Definition record_outcome (w : World) (v : Vars) (sample : string) : Vars :=
  if builds w sample then record_success sample v else record_failure sample v.

(** The variables once the loop has gone through a list of samples. *)
Definition record_all (w : World) (l : list string) (v : Vars) : Vars :=
  fold_left (record_outcome w) l v.

(** What is seen of one turn of the loop that comes to its end. *)
Definition unit_block (w : World) (sample : string) : list event :=
  (unit_banner sample
   ++ unit_trace sample (unit_env w sample)
   ++ [Echo (if builds w sample then "  ✅ SUCCESS" else "  ❌ FAILED");
       Exec sample Popd; Echo ""])%list.

(** A string without blank: no character of the default [IFS]. *)
Definition no_blank (s : string) : bool :=
  all_chars (fun c => negb (is_ifs c)) s.

End Batch.

(** ** More samples and worlds *)
Module MoreExamples.
Import Text Fs Harness Plan Examples.

(** A sample with typed sources only: no build script, no compiler
    configuration. *)
Definition typed_sample : UnitEnv :=
  {| manifest_scripts := [("start", "node index.js")];
     pushd_status := 0;
     npm_ci_status := 0;
     npm_run_stdout := unlines ["Scripts available via `npm run-script`:"; "  start"; "    node index.js"];
     npm_run_build_status := 1;
     unit_entries :=
       [File "package.json"; Dir "src" [File "index.ts"; File "util.ts"];
        Dir "node_modules" [Dir "left-pad" [File "index.d.ts"]]];
     unit_glob := no_glob;
     tsc_project_status := 1;
     tsc_files_status := fun files => length files - 2 |}.

(** A working directory without [samples]. *)
Definition no_samples_directory : World :=
  {| root_entries := [File "package.json"; File "README.md"];
     root_glob := no_glob;
     root_npm_ci_status := 0;
     unit_env := fun _ => no_such_sample |}.

(** The variables in the middle of a loop: one success and one failure
    have been counted before. *)
Definition warm_vars : Vars :=
  {| samples := ["samples/x"; "samples/y"; "samples/a"; "samples/b"];
     results := <["samples/y" := "failed"]> (<["samples/x" := "success"]> ∅);
     total_samples := 4;
     successful := 1;
     failed := 1 |}.

End MoreExamples.

(** ** The conditions of the design

    Section 4.2 of the design gives the conditions of the four strategies
    in terms of the sample: what its manifest declares and what its
    directory holds.  This module follows those words; the script tests
    something else for the first one (the listing of [npm run]). *)
Module Design.
Import Text Fs Harness Plan.

(** "The unit's manifest declares an explicit build command". *)
Definition declares_build (u : UnitEnv) : bool :=
  existsb (String.eqb "build") (List.map fst (manifest_scripts u)).

(** "A strict compiler-configuration file exists in the unit directory". *)
Definition has_compiler_config (u : UnitEnv) : bool :=
  existsb (fun n => String.eqb (node_name n) "tsconfig.json" && leads_to_file n)
    (unit_entries u).

(** A typed source outside the dependency cache of the sample. *)
Definition is_typed_source (visit : string * node) : bool :=
  ends_with ".ts" (node_name visit.2)
  && negb (String.prefix "./node_modules/" visit.1).

(** "Any statically-typed source files exist in the unit directory tree
    (excluding the dependency-cache directory)". *)
Definition has_typed_sources (u : UnitEnv) : bool :=
  existsb is_typed_source (find_walk "." (Dir "." (unit_entries u))).

Definition applies (u : UnitEnv) (s : strategy) : bool :=
  match s with
  | ExplicitBuild => declares_build u
  | ProjectTypeCheck => has_compiler_config u
  | LenientTypeCheck => has_typed_sources u
  | NoTypedSources => true
  end.

(** "In priority order, first match wins". *)
Definition chosen (u : UnitEnv) : strategy :=
  List.hd NoTypedSources (List.filter (applies u) priority).

(** The probe of line 44 tells the truth about the manifest: the listing
    of [npm run] has a line with "build" exactly when a [build] script is
    declared. *)
Definition probe_faithful (u : UnitEnv) : Prop :=
  grep_q "build" (npm_run_stdout u) = 0 <-> declares_build u = true.

(** The entries of a directory have names of their own. *)
Definition distinct_names (entries : list node) : Prop :=
  List.NoDup (List.map node_name entries).

End Design.

(** ** The script from line 36 on, and more observations *)
Module Stages.
Import Text Fs Harness Plan Batch Examples.

(** Lines 36 to 98: the loop and the summary. *)
Definition build_and_report (w : World) : sh unit :=
  v <- get_vars ;;
  for_each (samples v) (build_sample w) ;;
  report.


(** The samples a run got into: a [pushd] that is followed by the
    [npm ci] of line 43 has succeeded. *)
Fixpoint worked_in (t : list event) : list string :=
  match t with
  | [] => []
  | Exec _ (Pushd dir) :: rest =>
      match rest with
      | Exec _ NpmCi :: _ => dir :: worked_in rest
      | _ => worked_in rest
      end
  | _ :: rest => worked_in rest
  end.

(** A byte of ASCII: the high bit is not set. *)
Definition is_ascii (c : ascii) : bool :=
  match c with Ascii _ _ _ _ _ _ _ high => negb high end.

(** A text in ASCII: every character is one byte, in every locale. *)
Definition ascii_only (s : string) : bool := all_chars is_ascii s.

(** A sample without [build] script whose start command mentions a
    [build] directory; it has a compiler configuration that checks. *)
Definition lookalike_sample : UnitEnv :=
  {| manifest_scripts := [("start", "node build/index.js")];
     pushd_status := 0;
     npm_ci_status := 0;
     npm_run_stdout :=
       unlines ["Lifecycle scripts included in lookalike@1.0.0:";
                "  start"; "    node build/index.js"];
     npm_run_build_status := 1;
     unit_entries :=
       [File "package.json"; File "tsconfig.json"; Dir "src" [File "index.ts"]];
     unit_glob := no_glob;
     tsc_project_status := 0;
     tsc_files_status := fun _ => 0 |}.


End Stages.

(** ** Proof tools *)

(** Closed statements about concrete worlds are settled by evaluation. *)
Ltac evaluate := vm_compute; reflexivity.

(** Membership in a list that is known: one case for every element. *)
Ltac each_member H :=
  vm_compute in H;
  repeat (destruct H as [H|H]; [|]);
  [..|destruct H].

(** ** Facts about the text tools *)
Module TextFacts.
Import Text.

Lemma fnmatch_literal (pat : string) :
  literal pat = true -> forall s, fnmatch pat s = String.eqb pat s.
Proof.
  induction pat as [|p pat IH]; intros Hlit s.
  - destruct s; reflexivity.
  - simpl in Hlit.
    apply andb_prop in Hlit as [Hp Hlit].
    apply andb_prop in Hp as [Hstar Hany].
    apply negb_true_iff in Hstar, Hany.
    simpl. rewrite Hstar.
    destruct s as [|c s]; [reflexivity|].
    rewrite Hany. simpl. rewrite (IH Hlit). reflexivity.
Qed.

Lemma fnmatch_star_all (s : string) : fnmatch "*" s = true.
Proof. induction s as [|c s IH]; [reflexivity | exact IH]. Qed.

(** [*LITERAL] matches the strings that end in the literal. *)
Lemma fnmatch_star_literal (lit : string) :
  literal lit = true ->
  forall s, fnmatch (String "*" lit) s = ends_with lit s.
Proof.
  intros Hlit s.
  induction s as [|c s IH].
  - simpl. rewrite (fnmatch_literal lit Hlit). destruct lit; reflexivity.
  - change (fnmatch (String "*" lit) (String c s))
      with (fnmatch lit (String c s) || fnmatch (String "*" lit) s).
    rewrite IH, (fnmatch_literal lit Hlit). reflexivity.
Qed.

(** [LITERAL*] matches the strings that start with the literal. *)
Lemma fnmatch_literal_star (lit : string) :
  literal lit = true ->
  forall s, fnmatch (lit +:+ "*") s = String.prefix lit s.
Proof.
  induction lit as [|p lit IH]; intros Hlit s.
  - rewrite fnmatch_star_all. destruct s; reflexivity.
  - simpl in Hlit.
    apply andb_prop in Hlit as [Hp Hlit].
    apply andb_prop in Hp as [Hstar Hany].
    apply negb_true_iff in Hstar, Hany.
    simpl. rewrite Hstar.
    destruct s as [|c s]; [reflexivity|].
    rewrite Hany. simpl. rewrite (IH Hlit).
    destruct (Ascii.eqb_spec p c) as [->|Hne].
    + destruct (ascii_dec c c); [reflexivity | contradiction].
    + destruct (ascii_dec p c); [contradiction | reflexivity].
Qed.

Lemma fnmatch_ts (name : string) : fnmatch "*.ts" name = ends_with ".ts" name.
Proof. apply (fnmatch_star_literal ".ts"). reflexivity. Qed.

Lemma fnmatch_node_modules (path : string) :
  fnmatch "./node_modules/*" path = String.prefix "./node_modules/" path.
Proof. apply (fnmatch_literal_star "./node_modules/"). reflexivity. Qed.

(** A text that starts with a character other than a newline has a first
    line that starts with that character. *)
Lemma lines_first (c : ascii) (s : string) :
  is_newline c = false ->
  exists l ls, lines (String c s) = String c l :: ls.
Proof.
  intros Hc. unfold lines. simpl. rewrite Hc.
  destruct (split_on is_newline s) as [|l ls]; simpl; eauto.
Qed.

Lemma lines_empty : lines "" = [].
Proof. reflexivity. Qed.

(** [... | head -1 | grep -q .] succeeds on a text that starts with a
    character other than a newline. *)
Lemma head_grep_first (c : ascii) (s : string) :
  is_newline c = false -> grep_q_dot (head_1 (String c s)) = 0.
Proof.
  intros Hc. unfold head_1.
  destruct (lines_first c s Hc) as (l & ls & ->).
  unfold grep_q_dot.
  change (String c l +:+ String newline "")
    with (String c (l +:+ String newline "")).
  destruct (lines_first c (l +:+ String newline "") Hc) as (l' & ls' & ->).
  reflexivity.
Qed.

(** [grep -q PATTERN] succeeds as soon as one line has the pattern. *)
Lemma grep_q_line (pat text line : string) :
  In line (lines text) -> contains pat line = true -> grep_q pat text = 0.
Proof.
  intros Hin Hc. unfold grep_q.
  replace (existsb (contains pat) (lines text)) with true; [reflexivity|].
  symmetry. apply existsb_exists. eauto.
Qed.

Lemma prefix_refl_app (a b : string) : String.prefix a (a +:+ b) = true.
Proof.
  induction a as [|c a IH]; simpl.
  - destruct b; reflexivity.
  - destruct (ascii_dec c c); [exact IH | contradiction].
Qed.

Lemma prefix_trans (a b c : string) :
  String.prefix a b = true -> String.prefix b c = true -> String.prefix a c = true.
Proof.
  revert b c. induction a as [|x a IH]; intros b c Hab Hbc.
  - destruct c; reflexivity.
  - destruct b as [|y b]; [discriminate|].
    destruct c as [|z c]; [discriminate|].
    simpl in *.
    destruct (ascii_dec x y) as [->|]; [|discriminate].
    destruct (ascii_dec y z) as [->|]; [|discriminate].
    eauto.
Qed.

(** [*LITERAL*] matches the strings that contain the literal. *)
Lemma fnmatch_star_literal_star (lit : string) :
  literal lit = true ->
  forall s, fnmatch (String "*" (lit +:+ "*")) s = contains lit s.
Proof.
  intros Hlit s.
  induction s as [|c s IH].
  - change (fnmatch (String "*" (lit +:+ "*")) "")
      with (fnmatch (lit +:+ "*") "" || false).
    rewrite (fnmatch_literal_star lit Hlit). reflexivity.
  - change (fnmatch (String "*" (lit +:+ "*")) (String c s))
      with (fnmatch (lit +:+ "*") (String c s)
            || fnmatch (String "*" (lit +:+ "*")) s).
    rewrite IH, (fnmatch_literal_star lit Hlit). reflexivity.
Qed.

Lemma fnmatch_inside_node_modules (path : string) :
  fnmatch "*/node_modules/*" path = contains "/node_modules/" path.
Proof. apply (fnmatch_star_literal_star "/node_modules/"). reflexivity. Qed.

(** *** Splitting what was joined *)

Lemma split_on_piece (sep : ascii -> bool) (x : string) (c : ascii) (rest : string) :
  all_chars (fun a => negb (sep a)) x = true -> sep c = true ->
  split_on sep (x +:+ String c rest) = x :: split_on sep rest.
Proof.
  intros Hx Hc. induction x as [|a x IH]; simpl.
  - rewrite Hc. reflexivity.
  - simpl in Hx. apply andb_prop in Hx as [Ha Hx].
    apply negb_true_iff in Ha. rewrite Ha, (IH Hx). reflexivity.
Qed.

Lemma split_on_some (sep : ascii -> bool) (s : string) : split_on sep s <> [].
Proof.
  destruct s as [|c s]; simpl; [discriminate|].
  destruct (sep c); [discriminate|].
  destruct (split_on sep s); discriminate.
Qed.

Lemma drop_last_empty_cons (x : string) (l : list string) :
  l <> [] -> drop_last_empty (x :: l) = x :: drop_last_empty l.
Proof. destruct l as [|y l]; [contradiction|]. destruct x; reflexivity. Qed.

(** The lines of a text printed line by line are the lines printed. *)
Lemma lines_unlines (l : list string) :
  List.Forall (fun x => all_chars (fun a => negb (is_newline a)) x = true) l ->
  lines (unlines l) = l.
Proof.
  induction 1 as [|x l Hx _ IH]; [reflexivity|].
  unfold lines in *. cbn [unlines].
  rewrite (split_on_piece is_newline x newline (unlines l) Hx eq_refl).
  rewrite drop_last_empty_cons by apply split_on_some.
  rewrite IH. reflexivity.
Qed.

(** Word splitting gives back the lines of a text whose lines are not
    empty and have no blank. *)
Lemma word_split_unlines (l : list string) :
  List.Forall (fun x => nonempty x = true
                        /\ all_chars (fun a => negb (is_ifs a)) x = true) l ->
  word_split (unlines l) = l.
Proof.
  induction 1 as [|x l [Hne Hx] _ IH]; [reflexivity|].
  unfold word_split in *. cbn [unlines].
  rewrite (split_on_piece is_ifs x newline (unlines l) Hx eq_refl).
  cbn [List.filter]. rewrite Hne, IH. reflexivity.
Qed.

Lemma all_chars_weaken (p q : ascii -> bool) (s : string) :
  (forall c, p c = true -> q c = true) ->
  all_chars p s = true -> all_chars q s = true.
Proof.
  intros Hpq. induction s as [|c s IH]; simpl; [reflexivity|].
  intros H. apply andb_prop in H as [Hc Hs].
  rewrite (Hpq c Hc), (IH Hs). reflexivity.
Qed.

Lemma plain_no_glob (s : string) : plain s = true -> has_glob_meta s = false.
Proof.
  unfold plain. induction s as [|c s IH]; simpl; [reflexivity|].
  intros H. apply andb_prop in H as [Hc Hs].
  apply andb_prop in Hc as [_ Hc]. apply negb_true_iff in Hc.
  rewrite Hc, (IH Hs). reflexivity.
Qed.

(** What follows a match of the expression is a part of the string. *)
Lemma regex_at_all_chars (ok : ascii -> bool) (re : string) :
  forall s rest, regex_at re s = Some rest ->
    all_chars ok s = true -> all_chars ok rest = true.
Proof.
  induction re as [|r re IH]; intros s rest Hm Hs; simpl in Hm.
  - injection Hm as <-. exact Hs.
  - destruct s as [|c s]; [discriminate Hm|].
    destruct (Ascii.eqb r "." || Ascii.eqb r c); [|discriminate Hm].
    simpl in Hs. apply andb_prop in Hs as [_ Hs]. exact (IH s rest Hm Hs).
Qed.

(** [sed] only removes characters. *)
Lemma sed_delete_all_chars (ok : ascii -> bool) (re s : string) :
  all_chars ok s = true -> all_chars ok (sed_delete re s) = true.
Proof.
  induction s as [|c s IH]; intros Hs.
  - simpl. destruct (regex_at re "") as [rest|] eqn:E; [|reflexivity].
    exact (regex_at_all_chars ok re "" rest E Hs).
  - cbn [sed_delete].
    destruct (regex_at re (String c s)) as [rest|] eqn:E.
    + exact (regex_at_all_chars ok re _ rest E Hs).
    + simpl in Hs. apply andb_prop in Hs as [Hc Hs].
      simpl. rewrite Hc, (IH Hs). reflexivity.
Qed.

(** [sed] removes the tail when the expression matches the tail and
    nothing before it. *)
Lemma sed_delete_tail (re d tail : string) :
  no_early_match re d tail = true -> regex_at re tail = Some "" ->
  sed_delete re (d +:+ tail) = d.
Proof.
  intros Hd Htail. induction d as [|c d IH].
  - change ("" +:+ tail) with tail.
    destruct tail; cbn [sed_delete]; rewrite Htail; reflexivity.
  - cbn [no_early_match] in Hd.
    change (String c d +:+ tail) with (String c (d +:+ tail)) in *.
    cbn [sed_delete].
    destruct (regex_at re (String c (d +:+ tail))); [discriminate Hd|].
    rewrite (IH Hd). reflexivity.
Qed.

End TextFacts.

(** ** Facts about directory trees and [find] *)
Module FsFacts.
Import Text Fs Harness Plan TextFacts.

Lemma find_walk_dir (path name : string) (entries : list node) :
  find_walk path (Dir name entries) =
  (path, Dir name entries) ::
  flat_map (fun e => find_walk (child_path path (node_name e)) e) entries.
Proof.
  reflexivity.
Qed.

Lemma prefix_refl (a : string) : String.prefix a a = true.
Proof.
  induction a as [|c a IH]; simpl; [reflexivity|].
  destruct (ascii_dec c c); [exact IH | contradiction].
Qed.

(** Every path [find] prints starts with the path of its starting point. *)
Lemma find_walk_prefix (n : node) :
  forall path p m, In (p, m) (find_walk path n) -> String.prefix path p = true.
Proof.
  induction n as [name|name to_file|name entries IH] using node_ind_entries;
    intros path p m Hin.
  - destruct Hin as [[= <- _]|[]]. apply prefix_refl.
  - destruct Hin as [[= <- _]|[]]. apply prefix_refl.
  - rewrite find_walk_dir in Hin.
    destruct Hin as [[= <- _]|Hin]; [apply prefix_refl|].
    apply in_flat_map in Hin as (e & He & Hin).
    rewrite List.Forall_forall in IH.
    apply (prefix_trans path (child_path path (node_name e)) p).
    + unfold child_path. apply prefix_refl_app.
    + exact (IH e He _ _ _ Hin).
Qed.

Lemma prefix_cons_inv (a : ascii) (s q : string) :
  String.prefix (String a s) q = true -> exists q', q = String a q'.
Proof.
  destruct q as [|c q]; [intros [=]|].
  change (String.prefix (String a s) (String c q))
    with (if ascii_dec a c then String.prefix s q else false).
  destruct (ascii_dec a c) as [<-|]; [eauto | intros [=]].
Qed.

(** A visit of [find] is the starting point, or an entry of a directory
    visited before. *)
Lemma find_walk_inv (n : node) :
  forall path p m, In (p, m) (find_walk path n) ->
    (p = path /\ m = n) \/
    exists d name entries,
      In (d, Dir name entries) (find_walk path n) /\ In m entries
      /\ p = child_path d (node_name m).
Proof.
  induction n as [name|name to_file|name entries IH] using node_ind_entries;
    intros path p m Hin.
  - destruct Hin as [[= <- <-]|[]]. left. auto.
  - destruct Hin as [[= <- <-]|[]]. left. auto.
  - rewrite find_walk_dir in Hin.
    destruct Hin as [[= <- <-]|Hin]; [left; auto|]. right.
    apply in_flat_map in Hin as (e & He & Hin).
    rewrite List.Forall_forall in IH.
    destruct (IH e He _ _ _ Hin) as [[-> ->]|(d & dn & des & Hd & Hm & ->)].
    + exists path, name, entries. split; [|auto].
      rewrite find_walk_dir. left. reflexivity.
    + exists d, dn, des. split; [|auto].
      rewrite find_walk_dir. right. apply in_flat_map. eauto.
Qed.

(** [find] visits every entry of a directory it visits. *)
Lemma find_walk_entry (n : node) :
  forall path d name entries m,
    In (d, Dir name entries) (find_walk path n) -> In m entries ->
    In (child_path d (node_name m), m) (find_walk path n).
Proof.
  induction n as [fname|fname to_file|dname dentries IH] using node_ind_entries;
    intros path d name entries m Hd Hm.
  - destruct Hd as [[=]|[]].
  - destruct Hd as [[=]|[]].
  - rewrite find_walk_dir in Hd |- *. right. apply in_flat_map.
    rewrite List.Forall_forall in IH.
    destruct Hd as [[= <- <- <-]|Hd].
    + exists m. split; [exact Hm|].
      destruct m; [left; reflexivity | rewrite find_walk_dir; left; reflexivity
                  | left; reflexivity].
    + apply in_flat_map in Hd as (e & He & Hd).
      exists e. split; [exact He|]. exact (IH e He _ _ _ _ _ Hd Hm).
Qed.

Lemma lookup_entry_name (name : string) (es : list node) (n : node) :
  lookup_entry name es = Some n -> node_name n = name.
Proof.
  induction es as [|e es IH]; simpl; [discriminate|].
  destruct (String.eqb (node_name e) name) eqn:E; [|exact IH].
  intros [= <-]. apply String.eqb_eq. exact E.
Qed.

(** The paths [find .] prints start with a dot. *)
Lemma find_ts_dot (entries : list node) (p : string) :
  In p (find_ts entries) -> exists p', p = String "." p'.
Proof.
  unfold find_ts. intros Hin.
  apply List.in_map_iff in Hin as ([q m] & <- & Hin).
  apply List.filter_In in Hin as [Hin _].
  apply find_walk_prefix in Hin.
  exact (prefix_cons_inv "." "" q Hin).
Qed.

(** The probe of line 52 succeeds exactly when [find] prints a path. *)
Lemma ts_probe (entries : list node) :
  Nat.eqb (grep_q_dot (head_1 (unlines (find_ts entries)))) 0 =
  match find_ts entries with [] => false | _ => true end.
Proof.
  destruct (find_ts entries) as [|p ps] eqn:E; [reflexivity|].
  destruct (find_ts_dot entries p) as [p' ->]; [rewrite E; left; reflexivity|].
  change (unlines (String "." p' :: ps))
    with (String "." (p' +:+ String newline (unlines ps))).
  rewrite head_grep_first; reflexivity.
Qed.

Lemma filter_none {A : Type} (f : A -> bool) (l : list A) :
  (forall x, In x l -> f x = false) -> List.filter f l = [].
Proof.
  induction l as [|x l IH]; intros H; simpl; [reflexivity|].
  rewrite (H x (or_introl eq_refl)). apply IH.
  intros y Hy. apply H. right. exact Hy.
Qed.

(** Without typed sources outside the dependency cache, [find] prints
    nothing. *)
Lemma no_ts_find (entries : list node) :
  no_ts_outside_cache entries -> find_ts entries = [].
Proof.
  intros H. unfold find_ts.
  rewrite filter_none; [reflexivity|].
  intros [p m] Hin. unfold is_ts_source. cbn [fst snd].
  rewrite fnmatch_ts, fnmatch_node_modules.
  destruct (ends_with ".ts" (node_name m)) eqn:E; [|reflexivity].
  rewrite (H p m Hin E). reflexivity.
Qed.

(** Without a regular file of that name, [[ -f tsconfig.json ]] fails. *)
Lemma no_tsconfig_test (entries : list node) :
  no_tsconfig entries -> test_f "tsconfig.json" entries = false.
Proof.
  unfold test_f.
  induction entries as [|e es IH]; intros H; simpl; [reflexivity|].
  destruct (String.eqb (node_name e) "tsconfig.json") eqn:E.
  - apply String.eqb_eq in E. apply (H e (or_introl eq_refl) E).
  - apply IH. intros n Hn. apply H. right. exact Hn.
Qed.

(** A declared build script is seen by the probe of line 44. *)
Lemma declared_build_probe (u : UnitEnv) :
  declares_script u "build" -> npm_lists_scripts u ->
  grep_q "build" (npm_run_stdout u) = 0.
Proof.
  intros Hd Hl. destruct (Hl "build" Hd) as (line & Hin & Hc).
  exact (grep_q_line "build" _ line Hin Hc).
Qed.

End FsFacts.

(** ** Facts about the script *)
Module HarnessFacts.
Import Text Fs Harness Plan TextFacts FsFacts.

Lemma say_run (line : string) (v : Vars) :
  say line v = ([Echo line], v, Next tt).
Proof. reflexivity. Qed.

(** A loop that only prints comes to its end. *)
Lemma for_each_say (f : string -> string) (l : list string) (v : Vars) :
  for_each l (fun x => say (f x)) v = (List.map (fun x => Echo (f x)) l, v, Next tt).
Proof.
  induction l as [|x l IH]; [reflexivity|].
  cbn [for_each List.map]. unfold sh_bind at 1.
  rewrite say_run, IH. reflexivity.
Qed.

(** The [if]/[elif] chain of lines 44 to 57 runs the first applicable
    strategy of the design, and nothing else. *)
Lemma strategy_chain_plan (dir : string) (u : UnitEnv) (v : Vars) :
  strategy_chain dir u v =
  (strategy_trace dir u (first_applicable u), v,
   Next (strategy_status u (first_applicable u))).
Proof.
  unfold strategy_chain, first_applicable, lenient_files.
  cbn [priority List.filter applicable].
  unfold sh_bind at 1. cbn [exec].
  destruct (Nat.eqb (grep_q "build" (npm_run_stdout u)) 0); [reflexivity|].
  destruct (test_f "tsconfig.json" (unit_entries u)); [reflexivity|].
  unfold sh_bind at 1. cbn [echo]. unfold sh_bind at 1. cbn [exec].
  rewrite ts_probe.
  unfold strategy_trace, strategy_status, lenient_files.
  destruct (find_ts (unit_entries u)) as [|p ps]; reflexivity.
Qed.

(** Lines 43 to 58 leave the variables alone and always return. *)
Lemma build_condition_plan (dir : string) (u : UnitEnv) (v : Vars) :
  build_condition dir u v = (unit_trace dir u, v, Next (unit_status u)).
Proof.
  unfold build_condition, unit_trace, unit_status.
  unfold sh_bind. cbn [exec].
  destruct (Nat.eqb (npm_ci_status u) 0); [|reflexivity].
  rewrite strategy_chain_plan. reflexivity.
Qed.

Lemma errexit_run (c : sh nat) (v v' : Vars) (t : list event) (status : nat) :
  c v = (t, v', Next status) ->
  errexit c v = (t, v', if Nat.eqb status 0 then Next tt else Exit status).
Proof.
  intros H. unfold errexit, sh_bind. rewrite H.
  destruct (Nat.eqb status 0); cbn; rewrite app_nil_r; reflexivity.
Qed.

(** Lines 37 to 69 on one sample, in every case. *)
Lemma build_sample_run (w : World) (sample : string) (v : Vars) :
  build_sample w sample v =
  let u := unit_env w sample in
  if Nat.eqb (pushd_status u) 0 then
    if Nat.eqb (unit_status u) 0 then
      if Z.eqb (successful v) 0 then
        ((unit_banner sample ++ unit_trace sample u ++ [Echo "  ✅ SUCCESS"])%list,
         record_success sample v, Exit 1)
      else
        ((unit_banner sample ++ unit_trace sample u
          ++ [Echo "  ✅ SUCCESS"; Exec sample Popd; Echo ""])%list,
         record_success sample v, Next tt)
    else
      if Z.eqb (failed v) 0 then
        ((unit_banner sample ++ unit_trace sample u ++ [Echo "  ❌ FAILED"])%list,
         record_failure sample v, Exit 1)
      else
        ((unit_banner sample ++ unit_trace sample u
          ++ [Echo "  ❌ FAILED"; Exec sample Popd; Echo ""])%list,
         record_failure sample v, Next tt)
  else (unit_banner sample, v, Exit (pushd_status u)).
Proof.
  unfold build_sample. cbv zeta.
  destruct v as [found res total good bad].
  destruct (pushd_status (unit_env w sample)) as [|n] eqn:Hp; [|reflexivity].
  cbv beta iota delta [say errexit sh_bind echo exec sh_ret exit Nat.eqb].
  rewrite build_condition_plan.
  unfold record_success, record_failure.
  destruct (unit_status (unit_env w sample)) as [|m];
    [destruct good | destruct bad]; reflexivity.
Qed.

(** The first sample of a run is built with both counters at zero: the
    increment of line 61 or 65 then has the value 0, the arithmetic
    command returns 1, and [set -e] ends the shell. *)
Lemma build_sample_fresh (w : World) (sample : string) (v : Vars) :
  successful v = 0%Z -> failed v = 0%Z ->
  build_sample w sample v =
  let u := unit_env w sample in
  if Nat.eqb (pushd_status u) 0 then
    if Nat.eqb (unit_status u) 0 then
      ((unit_banner sample ++ unit_trace sample u ++ [Echo "  ✅ SUCCESS"])%list,
       record_success sample v, Exit 1)
    else
      ((unit_banner sample ++ unit_trace sample u ++ [Echo "  ❌ FAILED"])%list,
       record_failure sample v, Exit 1)
  else (unit_banner sample, v, Exit (pushd_status u)).
Proof.
  intros Hgood Hbad. rewrite build_sample_run. cbv zeta.
  rewrite Hgood, Hbad. reflexivity.
Qed.

(** Line 19 prints one line for every sample found. *)
Lemma printf_samples_run (p : string) (rest : list string) (v : Vars) :
  printf_samples (p :: rest) v =
  (List.map (fun s => Echo ("  - " +:+ s)) (p :: rest), v, Next tt).
Proof. unfold printf_samples. apply for_each_say. Qed.

(** A run that finds no sample. *)
Lemma run_no_samples (w : World) :
  discover w = [] ->
  run w =
  ([Echo "🔍 Discovering samples..."; Exec "." FindSamples;
    Echo "❌ No samples found!"],
   discovered_vars [], Exit 1).
Proof.
  intros Hd. unfold run, main.
  cbv beta iota delta [sh_bind say errexit echo exec sh_ret exit set_samples
                         get_vars init_vars Nat.eqb samples].
  rewrite Hd. reflexivity.
Qed.

(** A run whose root installation fails. *)
Lemma run_root_install_fails (w : World) :
  discover w <> [] -> root_npm_ci_status w <> 0 ->
  run w =
  (run_header (discover w), discovered_vars (discover w),
   Exit (root_npm_ci_status w)).
Proof.
  intros Hd Hroot. unfold run, main.
  destruct (discover w) as [|p rest] eqn:E; [contradiction|].
  cbv beta iota delta [sh_bind say errexit echo exec sh_ret exit set_samples
                         get_vars init_vars Nat.eqb samples length].
  rewrite printf_samples_run.
  destruct (root_npm_ci_status w) as [|n]; [contradiction|].
  reflexivity.
Qed.

(** A run whose root installation succeeds: it ends in the first sample. *)
Lemma run_first_sample (w : World) (p : string) (rest : list string) :
  discover w = p :: rest -> root_npm_ci_status w = 0 ->
  let r := build_sample w p (tracking_vars (p :: rest)) in
  run w =
  ((run_header (p :: rest) ++ [Echo "🔨 Building samples..."; Echo ""]
    ++ trace_of r)%list,
   vars_of r, flow_of r).
Proof.
  intros Hd Hroot. cbv zeta. unfold run, main.
  rewrite Hd.
  cbv beta iota delta [sh_bind say errexit echo exec sh_ret exit set_samples
                         get_vars init_vars Nat.eqb samples length
                         init_tracking for_each].
  rewrite printf_samples_run, Hroot.
  rewrite !build_sample_fresh by reflexivity.
  cbv zeta. unfold run_header, trace_of, vars_of, flow_of.
  destruct (Nat.eqb (pushd_status (unit_env w p)) 0);
    [destruct (Nat.eqb (unit_status (unit_env w p)) 0)|];
    cbn [fst snd]; rewrite <- !app_assoc; reflexivity.
Qed.

(** *** What the trace of a run cannot contain *)

Lemma existsb_listing (f : event -> bool) (l : list string) :
  (forall s, f (Echo ("  - " +:+ s)) = false) ->
  existsb f (List.map (fun s => Echo ("  - " +:+ s)) l) = false.
Proof.
  intros Hf. induction l as [|x l IH]; [reflexivity|].
  cbn [List.map existsb]. rewrite Hf, IH. reflexivity.
Qed.

Lemma header_no_unit_event (found : list string) :
  existsb unit_event (run_header found) = false.
Proof.
  unfold run_header. rewrite !existsb_app.
  rewrite existsb_listing by reflexivity. reflexivity.
Qed.

Lemma header_no_summary (found : list string) :
  existsb summary_event (run_header found) = false.
Proof.
  unfold run_header. rewrite !existsb_app.
  rewrite existsb_listing by reflexivity. reflexivity.
Qed.

Lemma unit_trace_no_summary (dir : string) (u : UnitEnv) :
  existsb summary_event (unit_trace dir u) = false.
Proof.
  unfold unit_trace.
  destruct (Nat.eqb (npm_ci_status u) 0); [|reflexivity].
  destruct (first_applicable u); reflexivity.
Qed.

(** The banner of the summary is never printed while a sample is built. *)
Lemma build_sample_no_summary (w : World) (sample : string) (v : Vars) :
  existsb summary_event (trace_of (build_sample w sample v)) = false.
Proof.
  rewrite build_sample_run. cbv zeta.
  destruct (Nat.eqb (pushd_status (unit_env w sample)) 0); [|reflexivity].
  destruct (Nat.eqb (unit_status (unit_env w sample)) 0);
    [destruct (Z.eqb (successful v) 0) | destruct (Z.eqb (failed v) 0)];
    unfold trace_of; cbn [fst]; rewrite !existsb_app, unit_trace_no_summary;
    reflexivity.
Qed.

(** No run of the script prints its summary: the shell has ended before
    line 73, in line 15, in line 24, or in the first sample. *)
Lemma run_never_reports (w : World) :
  existsb summary_event (trace_of (run w)) = false.
Proof.
  destruct (discover w) as [|p rest] eqn:Hd.
  - rewrite (run_no_samples w Hd). reflexivity.
  - destruct (Nat.eq_dec (root_npm_ci_status w) 0) as [Hroot|Hroot].
    + rewrite (run_first_sample w p rest Hd Hroot). unfold trace_of at 1. cbn [fst].
      rewrite !existsb_app, header_no_summary, build_sample_no_summary.
      reflexivity.
    + rewrite run_root_install_fails by congruence.
      unfold trace_of. cbn [fst]. apply header_no_summary.
Qed.

(** No run of the script ends with exit code 0. *)
Lemma run_never_green (w : World) : exit_code (run w) <> 0.
Proof.
  destruct (discover w) as [|p rest] eqn:Hd.
  - rewrite (run_no_samples w Hd). discriminate.
  - destruct (Nat.eq_dec (root_npm_ci_status w) 0) as [Hroot|Hroot].
    + rewrite (run_first_sample w p rest Hd Hroot).
      rewrite build_sample_fresh by reflexivity. cbv zeta.
      destruct (Nat.eqb (pushd_status (unit_env w p)) 0) eqn:Hp;
        [destruct (Nat.eqb (unit_status (unit_env w p)) 0); discriminate|].
      unfold exit_code, flow_of. cbn [snd].
      apply Nat.eqb_neq. exact Hp.
    + rewrite run_root_install_fails by congruence. exact Hroot.
Qed.

Lemma entered_app (t1 t2 : list event) :
  entered (t1 ++ t2) = (entered t1 ++ entered t2)%list.
Proof. apply flat_map_app. Qed.

Lemma entered_header (found : list string) : entered (run_header found) = [].
Proof.
  unfold run_header. rewrite !entered_app.
  replace (entered (List.map (fun s => Echo ("  - " +:+ s)) found)) with (@nil string);
    [reflexivity|].
  induction found as [|x l IH]; [reflexivity | exact IH].
Qed.

Lemma entered_unit_trace (dir : string) (u : UnitEnv) :
  entered (unit_trace dir u) = [].
Proof.
  unfold unit_trace.
  destruct (Nat.eqb (npm_ci_status u) 0); [|reflexivity].
  destruct (first_applicable u); reflexivity.
Qed.

Lemma entered_build_sample (w : World) (sample : string) (v : Vars) :
  entered (trace_of (build_sample w sample v)) = [sample].
Proof.
  rewrite build_sample_run. cbv zeta.
  destruct (Nat.eqb (pushd_status (unit_env w sample)) 0); [|reflexivity].
  destruct (Nat.eqb (unit_status (unit_env w sample)) 0);
    [destruct (Z.eqb (successful v) 0) | destruct (Z.eqb (failed v) 0)];
    unfold trace_of; cbn [fst]; rewrite !entered_app, entered_unit_trace;
    reflexivity.
Qed.

(** A run enters the first sample found, when the root installation
    succeeds, and never another one. *)
Lemma run_enters_first_only (w : World) :
  entered (trace_of (run w)) =
  match discover w with
  | [] => []
  | p :: _ => if Nat.eqb (root_npm_ci_status w) 0 then [p] else []
  end.
Proof.
  destruct (discover w) as [|p rest] eqn:Hd.
  - rewrite (run_no_samples w Hd). reflexivity.
  - destruct (Nat.eqb (root_npm_ci_status w) 0) eqn:Hroot.
    + apply Nat.eqb_eq in Hroot.
      rewrite (run_first_sample w p rest Hd Hroot). unfold trace_of at 1. cbn [fst].
      rewrite !entered_app, entered_header, entered_build_sample. reflexivity.
    + apply Nat.eqb_neq in Hroot.
      rewrite run_root_install_fails by congruence.
      unfold trace_of. cbn [fst]. apply entered_header.
Qed.

(** The array of samples is what discovery found, however the run ends. *)
Lemma run_samples (w : World) : samples (vars_of (run w)) = discover w.
Proof.
  destruct (discover w) as [|p rest] eqn:Hd.
  - rewrite (run_no_samples w Hd). reflexivity.
  - destruct (Nat.eq_dec (root_npm_ci_status w) 0) as [Hroot|Hroot].
    + rewrite (run_first_sample w p rest Hd Hroot).
      rewrite build_sample_fresh by reflexivity. cbv zeta.
      destruct (Nat.eqb (pushd_status (unit_env w p)) 0);
        [destruct (Nat.eqb (unit_status (unit_env w p)) 0)|]; reflexivity.
    + rewrite run_root_install_fails by congruence. rewrite Hd. reflexivity.
Qed.

(** Whatever a run records for a sample is "success" or "failed". *)
Lemma run_outcomes_binary (w : World) (sample status : string) :
  outcome_of (vars_of (run w)) sample = Some status ->
  status = "success" \/ status = "failed".
Proof.
  unfold outcome_of.
  destruct (discover w) as [|p rest] eqn:Hd.
  - rewrite (run_no_samples w Hd). cbn. rewrite lookup_empty. discriminate.
  - destruct (Nat.eq_dec (root_npm_ci_status w) 0) as [Hroot|Hroot].
    + rewrite (run_first_sample w p rest Hd Hroot).
      rewrite build_sample_fresh by reflexivity. cbv zeta.
      destruct (Nat.eqb (pushd_status (unit_env w p)) 0);
        [destruct (Nat.eqb (unit_status (unit_env w p)) 0)|];
        unfold vars_of; cbn [fst snd results record_success record_failure tracking_vars];
        try (rewrite lookup_empty; discriminate);
        (destruct (decide (p = sample)) as [->|Hne];
         [rewrite lookup_insert_eq; intros [= <-]; auto
         |rewrite lookup_insert_ne by exact Hne; rewrite lookup_empty; discriminate]).
    + rewrite run_root_install_fails by congruence.
      cbn. rewrite lookup_empty. discriminate.
Qed.

(** *** The root installation comes first *)

Lemma unit_free_prefix (l1 l2 t1 t2 : list event) (e : event) :
  (l1 ++ l2 = t1 ++ e :: t2)%list ->
  existsb unit_event l1 = false -> unit_event e = true ->
  exists l, t1 = (l1 ++ l)%list.
Proof.
  revert t1. induction l1 as [|x l1 IH]; intros t1 Heq Hfree He.
  - exists t1. reflexivity.
  - cbn [existsb] in Hfree. apply orb_false_elim in Hfree as [Hx Hfree].
    destruct t1 as [|y t1]; cbn [app] in Heq.
    + injection Heq as -> _. congruence.
    + injection Heq as -> Heq.
      destruct (IH t1 Heq Hfree He) as [l ->]. exists l. reflexivity.
Qed.

Lemma unit_free_event (t t1 t2 : list event) (e : event) :
  t = (t1 ++ e :: t2)%list -> existsb unit_event t = false -> unit_event e = false.
Proof.
  intros -> H. rewrite existsb_app in H.
  apply orb_false_elim in H as [_ H]. cbn [existsb] in H.
  apply orb_false_elim in H as [H _]. exact H.
Qed.

Lemma header_has_root_install (found : list string) :
  In (Exec "." NpmCi) (run_header found).
Proof.
  unfold run_header. apply in_or_app. right. apply in_or_app. right.
  right. right. left. reflexivity.
Qed.

(** Whatever is done for a sample in a run is done after the root
    installation has been run. *)
Lemma root_install_first (w : World) (t1 t2 : list event) (e : event) :
  trace_of (run w) = (t1 ++ e :: t2)%list -> unit_event e = true ->
  In (Exec "." NpmCi) t1.
Proof.
  intros Heq He.
  destruct (discover w) as [|p rest] eqn:Hd.
  - rewrite (run_no_samples w Hd) in Heq.
    apply unit_free_event in Heq; [congruence | reflexivity].
  - destruct (Nat.eq_dec (root_npm_ci_status w) 0) as [Hroot|Hroot].
    + rewrite (run_first_sample w p rest Hd Hroot) in Heq.
      unfold trace_of at 1 in Heq. cbn [fst] in Heq.
      destruct (unit_free_prefix _ _ _ _ _ Heq (header_no_unit_event _) He) as [l ->].
      apply in_or_app. left. apply header_has_root_install.
    + rewrite run_root_install_fails in Heq by congruence.
      unfold trace_of in Heq. cbn [fst] in Heq.
      apply unit_free_event in Heq; [congruence | apply header_no_unit_event].
Qed.

(** *** The summary *)

Lemma detailed_results_run (v : Vars) :
  detailed_results v = (status_lines (results v) (samples v), v, Next tt).
Proof.
  unfold detailed_results, sh_bind, get_vars.
  rewrite (for_each_say (result_line (results v))). reflexivity.
Qed.

(** Lines 72 to 98 from any state of the variables. *)
Lemma report_run (v : Vars) :
  report v =
  ((summary_head v ++ status_lines (results v) (samples v)
    ++ [Echo "";
        Echo (if (0 <? failed v)%Z then "⚠️ Some builds failed!"
              else "🎉 All builds successful!")])%list,
   v, Exit (if (0 <? failed v)%Z then 1 else 0)).
Proof.
  unfold report.
  cbv beta iota delta [sh_bind say errexit echo sh_ret exit get_vars Nat.eqb].
  rewrite detailed_results_run.
  unfold final_exit.
  cbv beta iota delta [sh_bind say errexit echo sh_ret exit get_vars Nat.eqb].
  unfold summary_head.
  destruct (0 <? failed v)%Z; cbn [app]; rewrite ?app_nil_r; reflexivity.
Qed.

Lemma result_line_marker (res : gmap string string) (sample : string) :
  result_line res sample = "  ✅ " +:+ sample \/
  result_line res sample = "  ❌ " +:+ sample.
Proof.
  unfold result_line.
  destruct (String.eqb (default "" (res !! sample)) "success"); auto.
Qed.

(** *** Discovery *)

(** The [find] stage of line 11 prints the paths of the regular files
    named [package.json] below [samples] that have no [/node_modules/]
    in their path. *)
Lemma find_samples_spec (cwd : list node) (start : node) (p : string) :
  lookup_entry "samples" cwd = Some start ->
  In p (find_samples cwd) <->
  exists n, In (p, n) (find_walk "samples" start)
            /\ node_name n = "package.json"
            /\ is_regular n = true
            /\ contains "/node_modules/" p = false.
Proof.
  intros Hstart. unfold find_samples. rewrite Hstart.
  rewrite List.in_map_iff. split.
  - intros ([q n] & <- & Hin). apply List.filter_In in Hin as [Hin Hm].
    unfold is_manifest in Hm. cbn [fst snd] in Hm.
    rewrite (fnmatch_literal "package.json" eq_refl) in Hm.
    rewrite fnmatch_inside_node_modules in Hm.
    apply andb_prop in Hm as [Hm Hreg]. apply andb_prop in Hm as [Hname Hnm].
    apply String.eqb_eq in Hname. apply negb_true_iff in Hnm.
    exists n. cbn [fst]. auto.
  - intros (n & Hin & Hname & Hreg & Hnm). exists (p, n). split; [reflexivity|].
    apply List.filter_In. split; [exact Hin|].
    unfold is_manifest. cbn [fst snd].
    rewrite (fnmatch_literal "package.json" eq_refl), fnmatch_inside_node_modules.
    rewrite Hnm, Hreg, <- Hname, String.eqb_refl. reflexivity.
Qed.

Lemma find_samples_start (cwd : list node) (p : string) :
  In p (find_samples cwd) -> exists p', p = String "s" p'.
Proof.
  unfold find_samples.
  destruct (lookup_entry "samples" cwd) as [start|]; [|intros []].
  intros Hin. apply List.in_map_iff in Hin as ([q n] & <- & Hin).
  apply List.filter_In in Hin as [Hin _].
  apply find_walk_prefix in Hin.
  exact (prefix_cons_inv "s" "amples" q Hin).
Qed.

Lemma expand_plain (glob : string -> list string) (l : list string) :
  List.Forall (fun x => plain x = true) l -> flat_map (expand_word glob) l = l.
Proof.
  induction 1 as [|x l Hx _ IH]; [reflexivity|].
  cbn [flat_map]. unfold expand_word at 1.
  rewrite (plain_no_glob x Hx), IH. reflexivity.
Qed.

(** When the paths [find] prints have no blank and no pattern character,
    the array of samples is the output of [sed], path by path, in the
    order of [find]. *)
Lemma discover_plain (w : World) :
  List.Forall (fun p => plain p = true) (find_samples (root_entries w)) ->
  discover w =
  List.map (sed_delete "/package.json") (find_samples (root_entries w)).
Proof.
  intros Hplain. unfold discover, sed_text.
  rewrite lines_unlines.
  2:{ eapply List.Forall_impl; [|exact Hplain].
      intros p. unfold plain. apply all_chars_weaken.
      intros c Hc. apply andb_prop in Hc as [Hc _].
      apply negb_true_iff in Hc. apply negb_true_iff.
      unfold is_ifs in Hc. apply orb_false_elim in Hc as [_ Hc]. exact Hc. }
  assert (Hout : List.Forall (fun x => nonempty x = true /\ plain x = true)
                   (List.map (sed_delete "/package.json")
                      (find_samples (root_entries w)))).
  { apply List.Forall_forall. intros x Hx.
    apply List.in_map_iff in Hx as (p & <- & Hp).
    rewrite List.Forall_forall in Hplain. specialize (Hplain p Hp).
    destruct (find_samples_start _ p Hp) as [p' ->].
    split; [reflexivity|].
    apply sed_delete_all_chars. exact Hplain. }
  rewrite word_split_unlines.
  2:{ eapply List.Forall_impl; [|exact Hout].
      intros x [Hne Hx]. split; [exact Hne|].
      revert Hx. unfold plain. apply all_chars_weaken.
      intros c Hc. apply andb_prop in Hc as [Hc _]. exact Hc. }
  apply expand_plain.
  eapply List.Forall_impl; [|exact Hout]. intros x [_ Hx]. exact Hx.
Qed.

(** When, moreover, the expression of [sed] has no match inside the path
    of a directory, the samples are the directories below [samples] that
    hold a regular file [package.json] and have no [/node_modules/] on
    the way to it. *)
Lemma discover_units (w : World) (start : node) :
  lookup_entry "samples" (root_entries w) = Some start ->
  List.Forall (fun p => plain p = true) (find_samples (root_entries w)) ->
  (forall d name entries, In (d, Dir name entries) (find_walk "samples" start) ->
     no_early_match "/package.json" d "/package.json" = true) ->
  forall d,
    In d (discover w) <->
    exists name entries,
      In (d, Dir name entries) (find_walk "samples" start)
      /\ In (File "package.json") entries
      /\ contains "/node_modules/" (child_path d "package.json") = false.
Proof.
  intros Hstart Hplain Hsed d.
  rewrite (discover_plain w Hplain), List.in_map_iff. split.
  - intros (p & <- & Hp).
    apply (find_samples_spec _ start p Hstart) in Hp as (n & Hin & Hname & Hreg & Hnm).
    destruct (find_walk_inv start _ _ _ Hin) as [[_ ->]|(d0 & dn & des & Hd0 & Hn & ->)].
    + rewrite (lookup_entry_name _ _ _ Hstart) in Hname. discriminate Hname.
    + destruct n as [fname| |]; try discriminate Hreg. cbn in Hname. subst fname.
      cbn [node_name] in *. unfold child_path.
      change (d0 +:+ "/" +:+ "package.json") with (d0 +:+ "/package.json").
      rewrite (sed_delete_tail _ d0 _ (Hsed _ _ _ Hd0) eq_refl).
      exists dn, des. auto.
  - intros (name & entries & Hd & Hfile & Hnm).
    exists (child_path d "package.json"). split.
    + unfold child_path.
      change (d +:+ "/" +:+ "package.json") with (d +:+ "/package.json").
      exact (sed_delete_tail _ d _ (Hsed _ _ _ Hd) eq_refl).
    + apply (find_samples_spec _ start _ Hstart).
      exists (File "package.json"). repeat split; [|exact Hnm].
      exact (find_walk_entry start _ _ _ _ _ Hd Hfile).
Qed.

(** The two samples of the example tree are found this way. *)
Example discover_units_two_samples (d : string) :
  In d (discover Examples.two_good_samples) <->
  exists name entries,
    In (d, Dir name entries)
       (find_walk "samples"
          (Dir "samples" [Dir "a" [File "package.json"]; Dir "b" [File "package.json"]]))
    /\ In (File "package.json") entries
    /\ contains "/node_modules/" (child_path d "package.json") = false.
Proof.
  apply discover_units.
  - reflexivity.
  - vm_compute. repeat constructor.
  - intros p name entries Hin.
    each_member Hin; first [discriminate Hin | injection Hin as <- _; reflexivity].
Qed.

(** *** Which strategy is the first applicable one *)

Lemma first_applicable_build (u : UnitEnv) :
  grep_q "build" (npm_run_stdout u) = 0 -> first_applicable u = ExplicitBuild.
Proof.
  intros H. unfold first_applicable. cbn [priority List.filter applicable].
  rewrite H. reflexivity.
Qed.

Lemma first_applicable_none (u : UnitEnv) :
  grep_q "build" (npm_run_stdout u) <> 0 ->
  no_tsconfig (unit_entries u) -> no_ts_outside_cache (unit_entries u) ->
  first_applicable u = NoTypedSources.
Proof.
  intros Hb Hc Hts. unfold first_applicable.
  cbn [priority List.filter applicable].
  apply Nat.eqb_neq in Hb. rewrite Hb.
  rewrite (no_tsconfig_test _ Hc), (no_ts_find _ Hts). reflexivity.
Qed.

End HarnessFacts.

(** ** The properties of the harness *)
Module Claims.
Import Text Fs Harness Plan Examples TextFacts FsFacts HarnessFacts.

(** C1.  Isolation of failures: a failed installation or build of one
    sample is recorded as a failure of that sample, and the samples after
    it are still built.  The script records the failure but does not go
    on: with [samples/a] and [samples/b] found and [npm ci] failing in
    [samples/a], the run prints the FAILED marker of [samples/a], records
    it, and ends there with exit code 1, because [((failed++))] has the
    value 0 under [set -e].  [samples/b] is never entered and gets no
    outcome. *)
Theorem C1_failed_install_ends_run :
  discover first_install_fails = ["samples/a"; "samples/b"]
  /\ npm_ci_status (unit_env first_install_fails "samples/a") = 1
  /\ trace_of (run first_install_fails) =
     [Echo "🔍 Discovering samples..."; Exec "." FindSamples;
      Echo "📋 Found 2 samples:"; Echo "  - samples/a"; Echo "  - samples/b";
      Echo ""; Echo "📦 Installing root dependencies..."; Exec "." NpmCi;
      Echo "🔨 Building samples..."; Echo "";
      Echo "🚀 Building: samples/a";
      Echo "----------------------------------------";
      Exec "." (Pushd "samples/a"); Exec "samples/a" NpmCi;
      Echo "  ❌ FAILED"]
  /\ exit_code (run first_install_fails) = 1
  /\ outcome_of (vars_of (run first_install_fails)) "samples/a" = Some "failed"
  /\ outcome_of (vars_of (run first_install_fails)) "samples/b" = None
  /\ entered (trace_of (run first_install_fails)) = ["samples/a"].
Proof. repeat (split; [evaluate|]). evaluate. Qed.

(** C3.  Aggregation: the counters add up to the total, the summary is
    printed, and the exit code is 0 exactly when no failure was counted.
    With a single sample that builds, the script ends with exit code 1
    although no failure is counted, and prints no summary. *)
Theorem C3_red_exit_without_failure :
  discover one_good_sample = ["samples/a"]
  /\ trace_of (run one_good_sample) =
     [Echo "🔍 Discovering samples..."; Exec "." FindSamples;
      Echo "📋 Found 1 samples:"; Echo "  - samples/a";
      Echo ""; Echo "📦 Installing root dependencies..."; Exec "." NpmCi;
      Echo "🔨 Building samples..."; Echo "";
      Echo "🚀 Building: samples/a";
      Echo "----------------------------------------";
      Exec "." (Pushd "samples/a"); Exec "samples/a" NpmCi;
      Exec "samples/a" NpmRun; Echo "  📝 Running npm run build";
      Exec "samples/a" NpmRunBuild; Echo "  ✅ SUCCESS"]
  /\ successful (vars_of (run one_good_sample)) = 1%Z
  /\ failed (vars_of (run one_good_sample)) = 0%Z
  /\ total_samples (vars_of (run one_good_sample)) = 1%Z
  /\ existsb summary_event (trace_of (run one_good_sample)) = false
  /\ exit_code (run one_good_sample) = 1.
Proof. repeat (split; [evaluate|]). evaluate. Qed.

(** C5.  A failed installation.  When [npm ci] fails in a sample, the
    condition of the build [if] stops there: the sample is recorded as
    "failed", and neither the probe for a build script nor any build or
    type check is run for it. *)
Theorem C5_failed_install_no_strategy (w : World) (sample : string) (v : Vars) :
  pushd_status (unit_env w sample) = 0 ->
  npm_ci_status (unit_env w sample) <> 0 ->
  build_condition sample (unit_env w sample) v =
    ([Exec sample NpmCi], v, Next (npm_ci_status (unit_env w sample)))
  /\ trace_of (build_sample w sample v) =
       (unit_banner sample ++ [Exec sample NpmCi; Echo "  ❌ FAILED"]
        ++ (if Z.eqb (failed v) 0 then [] else [Exec sample Popd; Echo ""]))%list
  /\ outcome_of (vars_of (build_sample w sample v)) sample = Some "failed"
  /\ existsb strategy_event (trace_of (build_sample w sample v)) = false.
Proof.
  intros Hpushd Hci.
  rewrite build_condition_plan, build_sample_run. cbv zeta.
  unfold unit_trace, unit_status. rewrite Hpushd.
  destruct (npm_ci_status (unit_env w sample)) as [|n]; [contradiction|].
  cbn [Nat.eqb]. split; [reflexivity|].
  unfold outcome_of.
  destruct (Z.eqb (failed v) 0); unfold trace_of, vars_of; cbn [fst snd];
    (split; [reflexivity|]); (split; [apply lookup_insert_eq | reflexivity]).
Qed.

Lemma C5_failed_install_no_strategy_witness :
  build_condition "samples/a" (unit_env first_install_fails "samples/a") init_vars =
    ([Exec "samples/a" NpmCi], init_vars,
     Next (npm_ci_status (unit_env first_install_fails "samples/a")))
  /\ trace_of (build_sample first_install_fails "samples/a" init_vars) =
       (unit_banner "samples/a"
        ++ [Exec "samples/a" NpmCi; Echo "  ❌ FAILED"]
        ++ (if Z.eqb (failed init_vars) 0 then []
            else [Exec "samples/a" Popd; Echo ""]))%list
  /\ outcome_of (vars_of (build_sample first_install_fails "samples/a" init_vars))
       "samples/a" = Some "failed"
  /\ existsb strategy_event
       (trace_of (build_sample first_install_fails "samples/a" init_vars)) = false.
Proof.
  apply (C5_failed_install_no_strategy first_install_fails "samples/a" init_vars).
  - reflexivity.
  - vm_compute. lia.
Defined.

(** C6, as written: a sample without build command, without compiler
    configuration and without typed sources always ends as a success.
    It does not when its installation fails: the bare sample below has
    none of the three, [npm ci] returns 1 in it, and it is recorded as
    "failed", by the body of the loop and by a whole run. *)
Lemma C6_counterexample :
  manifest_scripts bare_uninstallable_sample = []
  /\ grep_q "build" (npm_run_stdout bare_uninstallable_sample) = 1
  /\ no_tsconfig (unit_entries bare_uninstallable_sample)
  /\ no_ts_outside_cache (unit_entries bare_uninstallable_sample)
  /\ npm_ci_status bare_uninstallable_sample = 1
  /\ outcome_of
       (vars_of (build_sample (bare_world bare_uninstallable_sample)
                   "samples/bare" init_vars)) "samples/bare" = Some "failed"
  /\ discover (bare_world bare_uninstallable_sample) = ["samples/bare"]
  /\ outcome_of (vars_of (run (bare_world bare_uninstallable_sample)))
       "samples/bare" = Some "failed".
Proof.
  split; [reflexivity|]. split; [evaluate|].
  split.
  { intros n Hin Hname. each_member Hin; subst n; first [discriminate Hname | reflexivity]. }
  split.
  { intros path n Hin Hts.
    each_member Hin; injection Hin as <- <-; first [discriminate Hts | evaluate]. }
  repeat (split; [evaluate|]). evaluate.
Qed.

(** C6, amended.  A sample that is entered, whose installation succeeds,
    for which [npm run] lists nothing with "build", which has no
    [tsconfig.json] file and no entry named [*.ts] outside its
    [node_modules], is recorded as a success: the note that no TypeScript
    file was found is printed, and no build or type check is run. *)
Theorem C6_nothing_to_check_is_success (w : World) (sample : string) (v : Vars) :
  pushd_status (unit_env w sample) = 0 ->
  npm_ci_status (unit_env w sample) = 0 ->
  grep_q "build" (npm_run_stdout (unit_env w sample)) <> 0 ->
  no_tsconfig (unit_entries (unit_env w sample)) ->
  no_ts_outside_cache (unit_entries (unit_env w sample)) ->
  outcome_of (vars_of (build_sample w sample v)) sample = Some "success"
  /\ trace_of (build_sample w sample v) =
       (unit_banner sample
        ++ [Exec sample NpmCi; Exec sample NpmRun;
            Echo "  🔍 Checking TypeScript syntax"; Exec sample FindTs;
            Echo "  ℹ️ No TypeScript files found"; Echo "  ✅ SUCCESS"]
        ++ (if Z.eqb (successful v) 0 then [] else [Exec sample Popd; Echo ""]))%list.
Proof.
  intros Hpushd Hci Hbuild Hconfig Hts.
  rewrite build_sample_run. cbv zeta.
  unfold unit_trace, unit_status.
  rewrite Hpushd, Hci, (first_applicable_none _ Hbuild Hconfig Hts).
  cbn [Nat.eqb strategy_status strategy_trace]. unfold outcome_of.
  destruct (Z.eqb (successful v) 0); unfold trace_of, vars_of; cbn [fst snd];
    (split; [apply lookup_insert_eq | reflexivity]).
Qed.

Lemma C6_nothing_to_check_is_success_witness :
  outcome_of (vars_of (build_sample (bare_world bare_sample) "samples/bare" init_vars))
    "samples/bare" = Some "success"
  /\ trace_of (build_sample (bare_world bare_sample) "samples/bare" init_vars) =
       (unit_banner "samples/bare"
        ++ [Exec "samples/bare" NpmCi; Exec "samples/bare" NpmRun;
            Echo "  🔍 Checking TypeScript syntax"; Exec "samples/bare" FindTs;
            Echo "  ℹ️ No TypeScript files found"; Echo "  ✅ SUCCESS"]
        ++ (if Z.eqb (successful init_vars) 0 then []
            else [Exec "samples/bare" Popd; Echo ""]))%list.
Proof.
  apply (C6_nothing_to_check_is_success (bare_world bare_sample) "samples/bare" init_vars).
  - reflexivity.
  - reflexivity.
  - vm_compute. lia.
  - intros n Hin Hname.
    each_member Hin; subst n; first [discriminate Hname | reflexivity].
  - intros path n Hin Hts.
    each_member Hin; injection Hin as <- <-;
      first [discriminate Hts | vm_compute; reflexivity].
Defined.

(** C7.  No sample found: the run prints that no sample was found and
    ends with exit code 1; nothing is done for any sample and no summary
    is printed. *)
Theorem C7_no_samples_found (w : World) :
  discover w = [] ->
  run w =
    ([Echo "🔍 Discovering samples..."; Exec "." FindSamples;
      Echo "❌ No samples found!"], discovered_vars [], Exit 1)
  /\ exit_code (run w) = 1
  /\ existsb unit_event (trace_of (run w)) = false
  /\ existsb summary_event (trace_of (run w)) = false.
Proof.
  intros Hd. rewrite (run_no_samples w Hd). repeat split.
Qed.

Lemma C7_no_samples_found_witness :
  discover no_samples = []
  /\ (run no_samples =
        ([Echo "🔍 Discovering samples..."; Exec "." FindSamples;
          Echo "❌ No samples found!"], discovered_vars [], Exit 1)
      /\ exit_code (run no_samples) = 1
      /\ existsb unit_event (trace_of (run no_samples)) = false
      /\ existsb summary_event (trace_of (run no_samples)) = false).
Proof.
  split; [vm_compute; reflexivity|].
  apply (C7_no_samples_found no_samples). vm_compute. reflexivity.
Defined.

(** C8.  Discovery yields the directories that hold a [package.json]
    outside every [node_modules].  It does not for a directory whose name
    has a blank: [find] prints [samples/my sample/package.json], and the
    unquoted expansion of line 11 splits the path of the directory into
    the two words [samples/my] and [sample].  Nor for a directory whose
    name matches the expression of [sed] before the manifest does:
    [samples/package-json] comes out as [samples/package.json]. *)
Theorem C8_discovery_mangles_paths :
  find_samples (root_entries blank_in_name) = ["samples/my sample/package.json"]
  /\ discover blank_in_name = ["samples/my"; "sample"]
  /\ ~ In "samples/my sample" (discover blank_in_name)
  /\ find_samples (root_entries manifest_like_name) =
       ["samples/package-json/package.json"]
  /\ discover manifest_like_name = ["samples/package.json"].
Proof.
  split; [evaluate|]. split; [evaluate|].
  split; [|split; evaluate].
  intros Hin. each_member Hin; discriminate Hin.
Qed.

(** C9.  Order of the status lines.  The array of samples of a run is
    what discovery found.  From any state of the variables whose array
    holds what discovery found, lines 82 to 89 print one
    status line for every sample found, in the order of discovery, each
    made of a marker and the path of the sample; the summary block is its
    head, these lines, and the closing line.  The lines depend on the
    table of results through its entries only, not on the order in which
    they were recorded. *)
Theorem C9_status_lines_in_discovery_order (w : World) (v : Vars) :
  samples v = discover w ->
  samples (vars_of (run w)) = discover w
  /\ trace_of (detailed_results v) =
    List.map (fun sample => Echo (result_line (results v) sample)) (discover w)
  /\ trace_of (report v) =
       (summary_head v
        ++ List.map (fun sample => Echo (result_line (results v) sample)) (discover w)
        ++ [Echo "";
            Echo (if (0 <? failed v)%Z then "⚠️ Some builds failed!"
                  else "🎉 All builds successful!")])%list
  /\ (forall sample,
        result_line (results v) sample = "  ✅ " +:+ sample \/
        result_line (results v) sample = "  ❌ " +:+ sample)
  /\ (forall (a b x y : string) (m : gmap string string), a <> b ->
        status_lines (<[a := x]> (<[b := y]> m)) (discover w) =
        status_lines (<[b := y]> (<[a := x]> m)) (discover w)).
Proof.
  intros Hs. rewrite detailed_results_run, report_run, Hs.
  split; [apply run_samples|].
  split; [reflexivity|]. split; [reflexivity|].
  split; [intros sample; apply result_line_marker|].
  intros a b x y m Hab. rewrite (insert_insert_ne m a b x y Hab). reflexivity.
Qed.

Lemma C9_status_lines_in_discovery_order_witness :
  samples recorded_vars = discover two_good_samples
  /\ trace_of (detailed_results recorded_vars) =
       List.map (fun sample => Echo (result_line (results recorded_vars) sample))
         (discover two_good_samples).
Proof.
  split; [vm_compute; reflexivity|].
  refine (proj1 (proj2 (C9_status_lines_in_discovery_order two_good_samples recorded_vars _))).
  vm_compute. reflexivity.
Defined.

(** C10.  The root installation.  In every run, whatever is done for a
    sample is done after [npm ci] has been run at the root.  When samples
    were found and this root installation fails, the run ends there with
    the non-zero status of [npm ci] as its exit code: nothing is done for
    any sample and no summary is printed. *)
Theorem C10_root_install_failure_is_fatal (w : World) :
  (forall (t1 t2 : list event) (e : event),
      trace_of (run w) = (t1 ++ e :: t2)%list -> unit_event e = true ->
      In (Exec "." NpmCi) t1)
  /\ (discover w <> [] -> root_npm_ci_status w <> 0 ->
      run w =
        (run_header (discover w), discovered_vars (discover w),
         Exit (root_npm_ci_status w))
      /\ exit_code (run w) <> 0
      /\ existsb unit_event (trace_of (run w)) = false
      /\ entered (trace_of (run w)) = []
      /\ existsb summary_event (trace_of (run w)) = false).
Proof.
  split; [intros t1 t2 e; apply root_install_first|].
  intros Hd Hroot. rewrite (run_root_install_fails w Hd Hroot).
  split; [reflexivity|]. split; [exact Hroot|].
  unfold trace_of. cbn [fst].
  split; [apply header_no_unit_event|].
  split; [apply entered_header | apply header_no_summary].
Qed.

Lemma C10_root_install_failure_is_fatal_witness :
  discover root_install_fails <> [] /\ root_npm_ci_status root_install_fails <> 0
  /\ (run root_install_fails =
        (run_header (discover root_install_fails),
         discovered_vars (discover root_install_fails),
         Exit (root_npm_ci_status root_install_fails))
      /\ exit_code (run root_install_fails) <> 0
      /\ existsb unit_event (trace_of (run root_install_fails)) = false
      /\ entered (trace_of (run root_install_fails)) = []
      /\ existsb summary_event (trace_of (run root_install_fails)) = false).
Proof.
  split; [vm_compute; discriminate|]. split; [vm_compute; lia|].
  apply (proj2 (C10_root_install_failure_is_fatal root_install_fails)).
  - vm_compute. discriminate.
  - vm_compute. lia.
Defined.

End Claims.

(** ** Facts about the loop and the pipelines *)
Module BatchFacts.
Import Text Fs Harness Plan Batch TextFacts FsFacts HarnessFacts.

(** Within the 64-bit range shell arithmetic is exact. *)
Lemma wrap64_small (z : Z) :
  (- 2 ^ 63 <= z < 2 ^ 63)%Z -> wrap64 z = z.
Proof.
  intros H. unfold wrap64. rewrite Z.mod_small; lia.
Qed.

(** No piece of a split has a separator in it. *)
Lemma split_on_no_sep (sep : ascii -> bool) (s x : string) :
  In x (split_on sep s) -> all_chars (fun c => negb (sep c)) x = true.
Proof.
  revert x. induction s as [|c s IH]; intros x Hin.
  - destruct Hin as [<-|[]]. reflexivity.
  - cbn [split_on] in Hin. destruct (sep c) eqn:Hc.
    + destruct Hin as [<-|Hin]; [reflexivity | exact (IH x Hin)].
    + destruct (split_on sep s) as [|y ys].
      * destruct Hin as [<-|[]]. cbn. rewrite Hc. reflexivity.
      * destruct Hin as [<-|Hin].
        -- cbn. rewrite Hc. cbn. apply IH. left. reflexivity.
        -- apply IH. right. exact Hin.
Qed.

(** The words of an unquoted expansion are not empty and have no blank. *)
Lemma word_split_words (text x : string) :
  In x (word_split text) -> nonempty x = true /\ no_blank x = true.
Proof.
  unfold word_split. intros Hin. apply List.filter_In in Hin as [Hin Hne].
  split; [exact Hne|]. exact (split_on_no_sep is_ifs text x Hin).
Qed.

Lemma entered_unit_block (w : World) (sample : string) :
  entered (unit_block w sample) = [sample].
Proof.
  unfold unit_block. rewrite !entered_app, entered_unit_trace. reflexivity.
Qed.

Lemma entered_blocks (w : World) (l : list string) :
  entered (flat_map (unit_block w) l) = l.
Proof.
  induction l as [|x l IH]; [reflexivity|].
  cbn [flat_map]. rewrite entered_app, entered_unit_block, IH. reflexivity.
Qed.

(** One turn of the loop with both counters away from zero. *)
Lemma build_sample_warm (w : World) (sample : string) (v : Vars) :
  pushd_status (unit_env w sample) = 0 ->
  successful v <> 0%Z -> failed v <> 0%Z ->
  build_sample w sample v = (unit_block w sample, record_outcome w v sample, Next tt).
Proof.
  intros Hp Hs Hf. rewrite build_sample_run. cbv zeta.
  unfold unit_block, record_outcome, builds. rewrite Hp. cbn [Nat.eqb].
  apply Z.eqb_neq in Hs, Hf. rewrite Hs, Hf.
  destruct (Nat.eqb (unit_status (unit_env w sample)) 0); reflexivity.
Qed.

Lemma record_outcome_samples (w : World) (v : Vars) (sample : string) :
  samples (record_outcome w v sample) = samples v
  /\ total_samples (record_outcome w v sample) = total_samples v.
Proof.
  unfold record_outcome. destruct (builds w sample); split; reflexivity.
Qed.

(** The counters after one turn, away from the limit of the arithmetic. *)
Lemma record_outcome_counters (w : World) (v : Vars) (sample : string) :
  (0 <= successful v < 2 ^ 63 - 1)%Z -> (0 <= failed v < 2 ^ 63 - 1)%Z ->
  successful (record_outcome w v sample) =
    (successful v + if builds w sample then 1 else 0)%Z
  /\ failed (record_outcome w v sample) =
    (failed v + if builds w sample then 0 else 1)%Z.
Proof.
  intros Hs Hf. unfold record_outcome.
  destruct (builds w sample); cbn [successful failed record_success record_failure];
    rewrite wrap64_small by lia; split; lia.
Qed.

Lemma record_outcome_lookup (w : World) (v : Vars) (sample other : string) :
  results (record_outcome w v sample) !! other =
  if decide (sample = other) then Some (expected_outcome w sample)
  else results v !! other.
Proof.
  unfold record_outcome, expected_outcome.
  destruct (builds w sample); cbn [results record_success record_failure];
    rewrite lookup_insert; reflexivity.
Qed.

(** The loop over a list of samples that can all be entered, started with
    both counters above zero and far from the limit of the arithmetic. *)
Lemma loop_warm_run (w : World) (l : list string) :
  forall v,
    (forall s, In s l -> pushd_status (unit_env w s) = 0) ->
    (0 < successful v)%Z -> (0 < failed v)%Z ->
    (successful v + Z.of_nat (length l) < 2 ^ 63)%Z ->
    (failed v + Z.of_nat (length l) < 2 ^ 63)%Z ->
    for_each l (build_sample w) v =
    (flat_map (unit_block w) l, record_all w l v, Next tt).
Proof.
  induction l as [|x l IH]; intros v Hp Hs Hf Hsb Hfb; [reflexivity|].
  cbn [for_each flat_map record_all fold_left]. unfold sh_bind.
  rewrite build_sample_warm by (try apply Hp; try left; try reflexivity; lia).
  cbn [length] in Hsb, Hfb.
  destruct (record_outcome_counters w v x) as [Es Ef]; [lia | lia |].
  fold (record_all w l (record_outcome w v x)).
  rewrite IH.
  - reflexivity.
  - intros s Hin. apply Hp. right. exact Hin.
  - rewrite Es. destruct (builds w x); lia.
  - rewrite Ef. destruct (builds w x); lia.
  - rewrite Es. destruct (builds w x); lia.
  - rewrite Ef. destruct (builds w x); lia.
Qed.

Lemma record_all_samples (w : World) (l : list string) :
  forall v, samples (record_all w l v) = samples v
            /\ total_samples (record_all w l v) = total_samples v.
Proof.
  induction l as [|x l IH]; intros v; [split; reflexivity|].
  cbn [record_all fold_left]. fold (record_all w l (record_outcome w v x)).
  destruct (IH (record_outcome w v x)) as [-> ->].
  apply record_outcome_samples.
Qed.

(** The counters count: one more success for every sample that builds,
    one more failure for every other sample. *)
Lemma record_all_counters (w : World) (l : list string) :
  forall v,
    (0 <= successful v)%Z -> (0 <= failed v)%Z ->
    (successful v + Z.of_nat (length l) < 2 ^ 63)%Z ->
    (failed v + Z.of_nat (length l) < 2 ^ 63)%Z ->
    successful (record_all w l v) =
      (successful v + Z.of_nat (length (List.filter (builds w) l)))%Z
    /\ failed (record_all w l v) =
      (failed v + Z.of_nat (length (List.filter (fun s => negb (builds w s)) l)))%Z.
Proof.
  induction l as [|x l IH]; intros v Hs Hf Hsb Hfb.
  - cbn. split; lia.
  - cbn [record_all fold_left List.filter]. fold (record_all w l (record_outcome w v x)).
    cbn [length] in Hsb, Hfb.
    destruct (record_outcome_counters w v x) as [Es Ef]; [lia | lia |].
    destruct (IH (record_outcome w v x)) as [-> ->];
      try (rewrite ?Es, ?Ef; destruct (builds w x); lia).
    rewrite Es, Ef. destruct (builds w x); cbn [negb length]; split; lia.
Qed.

Lemma record_all_lookup_other (w : World) (l : list string) (s : string) :
  forall v, ~ In s l -> results (record_all w l v) !! s = results v !! s.
Proof.
  induction l as [|x l IH]; intros v Hn; [reflexivity|].
  cbn [record_all fold_left]. fold (record_all w l (record_outcome w v x)).
  rewrite IH by (intros H; apply Hn; right; exact H).
  rewrite record_outcome_lookup.
  destruct (decide (x = s)) as [->|]; [|reflexivity].
  exfalso. apply Hn. left. reflexivity.
Qed.

Lemma record_all_lookup_in (w : World) (l : list string) (s : string) :
  forall v, In s l -> results (record_all w l v) !! s = Some (expected_outcome w s).
Proof.
  induction l as [|x l IH]; intros v Hin; [destruct Hin|].
  cbn [record_all fold_left]. fold (record_all w l (record_outcome w v x)).
  destruct (in_dec string_dec s l) as [Hl|Hl]; [exact (IH _ Hl)|].
  destruct Hin as [->|Hin]; [|contradiction].
  rewrite (record_all_lookup_other w l s _ Hl), record_outcome_lookup.
  destruct (decide (s = s)); [reflexivity | contradiction].
Qed.

(** The find stage prints nothing when [samples] is missing or is no
    directory. *)
Lemma find_samples_no_directory (cwd : list node) :
  (forall name entries, lookup_entry "samples" cwd <> Some (Dir name entries)) ->
  find_samples cwd = [].
Proof.
  intros H. unfold find_samples.
  destruct (lookup_entry "samples" cwd) as [start|] eqn:E; [|reflexivity].
  pose proof (lookup_entry_name _ _ _ E) as Hname.
  destruct start as [name|name entries|name to_file]; cbn in Hname; subst name.
  - reflexivity.
  - exfalso. exact (H _ _ eq_refl).
  - reflexivity.
Qed.

(** The arguments of the lenient type check are the paths [find] prints
    when these have no blank and no pattern character. *)
Lemma lenient_files_plain (u : UnitEnv) :
  List.Forall (fun p => plain p = true) (find_ts (unit_entries u)) ->
  lenient_files u = find_ts (unit_entries u).
Proof.
  intros Hplain. unfold lenient_files.
  rewrite word_split_unlines.
  - apply expand_plain. exact Hplain.
  - apply List.Forall_forall. intros p Hp.
    rewrite List.Forall_forall in Hplain. specialize (Hplain p Hp).
    destruct (find_ts_dot _ p Hp) as [p' ->].
    split; [reflexivity|].
    revert Hplain. unfold plain. apply all_chars_weaken.
    intros c Hc. apply andb_prop in Hc as [Hc _]. exact Hc.
Qed.

End BatchFacts.

(** ** Facts about the stages of the script and the design *)
Module StageFacts.
Import Text Fs Harness Plan Batch Design Stages.
Import TextFacts FsFacts HarnessFacts BatchFacts.





(** The script from line 36 on is what [main] does after line 33. *)
Lemma main_tail (w : World) (p : string) (rest : list string) :
  discover w = p :: rest -> root_npm_ci_status w = 0 ->
  run w =
    ((run_header (p :: rest) ++ [Echo "🔨 Building samples..."; Echo ""]
      ++ trace_of (build_and_report w (tracking_vars (p :: rest))))%list,
     vars_of (build_and_report w (tracking_vars (p :: rest))),
     flow_of (build_and_report w (tracking_vars (p :: rest)))).
Proof.
  intros Hd Hroot. unfold run, main, build_and_report.
  rewrite Hd.
  cbv beta iota delta [sh_bind say errexit echo exec sh_ret exit set_samples
                         get_vars init_vars Nat.eqb samples length
                         init_tracking tracking_vars].
  rewrite printf_samples_run, Hroot.
  match goal with
  | |- context [for_each ?l ?body ?v0] =>
      destruct (for_each l body v0) as [[t1 v1] [a|code]]
  end;
    [destruct (report v1) as [[t2 v2] r]|];
    unfold run_header, trace_of, vars_of, flow_of; cbn [fst snd app];
    rewrite <- ?app_assoc; reflexivity.
Qed.



(** *** Where a run got into *)

Lemma worked_in_skip (pre t : list event) :
  entered pre = [] -> worked_in (pre ++ t) = worked_in t.
Proof.
  induction pre as [|e pre IH]; intros H; [reflexivity|].
  cbn [app]. destruct e as [line|dir c].
  - cbn [worked_in]. apply IH. exact H.
  - destruct c; try (cbn [worked_in]; apply IH; exact H).
    discriminate H.
Qed.

Lemma worked_in_none (t : list event) : entered t = [] -> worked_in t = [].
Proof.
  intros H. rewrite <- (app_nil_r t). rewrite (worked_in_skip t [] H). reflexivity.
Qed.

(** A turn of the loop gets into the sample exactly when [pushd] succeeds. *)
Lemma worked_in_build_sample (w : World) (sample : string) (v : Vars) :
  worked_in (trace_of (build_sample w sample v)) =
  if Nat.eqb (pushd_status (unit_env w sample)) 0 then [sample] else [].
Proof.
  rewrite build_sample_run. cbv zeta.
  destruct (Nat.eqb (pushd_status (unit_env w sample)) 0); [|reflexivity].
  assert (H : forall tail, entered tail = [] ->
            worked_in (unit_banner sample
                       ++ unit_trace sample (unit_env w sample) ++ tail) = [sample]).
  { intros tail Ht. unfold unit_banner, unit_trace. cbn [app worked_in].
    f_equal. apply worked_in_none. rewrite entered_app, Ht.
    destruct (Nat.eqb (npm_ci_status (unit_env w sample)) 0); [|reflexivity].
    destruct (first_applicable (unit_env w sample)); reflexivity. }
  destruct (Nat.eqb (unit_status (unit_env w sample)) 0);
    [destruct (Z.eqb (successful v) 0) | destruct (Z.eqb (failed v) 0)];
    unfold trace_of; cbn [fst]; apply H; reflexivity.
Qed.


(** *** The conditions of the design and the probes of the script *)

Lemma existsb_filter {A : Type} (f : A -> bool) (l : list A) :
  existsb f l = match List.filter f l with [] => false | _ => true end.
Proof.
  induction l as [|x l IH]; [reflexivity|].
  cbn [existsb List.filter]. destruct (f x); [reflexivity | exact IH].
Qed.

(** The probe of line 52 finds something exactly when the sample has
    typed sources outside its dependency cache. *)
Lemma typed_sources_probe (u : UnitEnv) :
  has_typed_sources u =
  match find_ts (unit_entries u) with [] => false | _ => true end.
Proof.
  unfold has_typed_sources, find_ts. rewrite existsb_filter.
  rewrite (List.filter_ext is_typed_source is_ts_source).
  - destruct (List.filter is_ts_source (find_walk "." (Dir "." (unit_entries u))));
      reflexivity.
  - intros [p n]. unfold is_typed_source, is_ts_source. cbn [fst snd].
    rewrite fnmatch_ts, fnmatch_node_modules. reflexivity.
Qed.

Lemma no_entry_named (name : string) (entries : list node) :
  ~ In name (List.map node_name entries) ->
  existsb (fun n => String.eqb (node_name n) name && leads_to_file n) entries = false.
Proof.
  induction entries as [|e es IH]; intros H; [reflexivity|].
  cbn [existsb]. destruct (String.eqb_spec (node_name e) name) as [E|E].
  - exfalso. apply H. left. exact E.
  - cbn [andb orb]. apply IH. intros Hin. apply H. right. exact Hin.
Qed.

(** In a directory whose entries have names of their own, [[ -f NAME ]]
    holds exactly when an entry of that name is a file or leads to one. *)
Lemma compiler_config_test (u : UnitEnv) :
  distinct_names (unit_entries u) ->
  has_compiler_config u = test_f "tsconfig.json" (unit_entries u).
Proof.
  unfold distinct_names, has_compiler_config, test_f.
  induction (unit_entries u) as [|e es IH]; intros Hd; [reflexivity|].
  cbn [List.map] in Hd. apply List.NoDup_cons_iff in Hd as [Hnew Hd].
  cbn [existsb lookup_entry].
  destruct (String.eqb_spec (node_name e) "tsconfig.json") as [E|E].
  - rewrite no_entry_named by (rewrite <- E; exact Hnew).
    cbn [andb]. apply orb_false_r.
  - cbn [andb orb]. exact (IH Hd).
Qed.

(** With a probe that tells the truth, the rule the script uses is the
    strategy the design chooses. *)
Lemma chosen_first_applicable (u : UnitEnv) :
  probe_faithful u -> distinct_names (unit_entries u) ->
  first_applicable u = chosen u.
Proof.
  intros Hprobe Hnames. unfold first_applicable, chosen. f_equal.
  apply List.filter_ext. intros [| | |]; cbn [applicable applies].
  - unfold probe_faithful in Hprobe.
    destruct (declares_build u);
      destruct (Nat.eqb_spec (grep_q "build" (npm_run_stdout u)) 0) as [E|E];
      try reflexivity.
    + exfalso. apply E. apply Hprobe. reflexivity.
    + apply Hprobe in E. discriminate E.
  - symmetry. exact (compiler_config_test u Hnames).
  - symmetry. exact (typed_sources_probe u).
  - reflexivity.
Qed.

(** A declared build script makes the design choose the build command. *)
Lemma chosen_build (u : UnitEnv) :
  declares_build u = true -> chosen u = ExplicitBuild.
Proof.
  intros H. unfold chosen. cbn [priority List.filter applies]. rewrite H. reflexivity.
Qed.

Lemma declares_build_script (u : UnitEnv) :
  declares_build u = true -> declares_script u "build".
Proof.
  unfold declares_build, declares_script. intros H.
  apply existsb_exists in H as (name & Hin & Heq).
  apply String.eqb_eq in Heq. subst name. exact Hin.
Qed.

End StageFacts.

(** ** The properties of the loop and of the choice of a strategy *)
Module StageClaims.
Import Text Fs Harness Plan Batch Design Stages Examples.
Import TextFacts FsFacts HarnessFacts BatchFacts StageFacts.




(** C4.  Strategy priority: the strategies are tried in priority order,
    the explicit build command first when the manifest declares one, and
    the first applicable one decides.  The script asks [npm run] for its
    listing and greps it for "build" (line 44).  For the sample below,
    whose manifest declares a [start] script only (with the command
    [node build/index.js]) and which has a [tsconfig.json] that checks,
    the design chooses the type check of the project; the script finds
    "build" in the listing, runs [npm run build], which fails, never
    runs the type check, and records the sample as "failed". *)
Theorem C4_listing_mentions_build :
  manifest_scripts lookalike_sample = [("start", "node build/index.js")]
  /\ declares_build lookalike_sample = false
  /\ has_compiler_config lookalike_sample = true
  /\ chosen lookalike_sample = ProjectTypeCheck
  /\ tsc_project_status lookalike_sample = 0
  /\ grep_q "build" (npm_run_stdout lookalike_sample) = 0
  /\ strategy_chain "samples/bare" lookalike_sample init_vars =
       ([Exec "samples/bare" NpmRun; Echo "  📝 Running npm run build";
         Exec "samples/bare" NpmRunBuild], init_vars, Next 1)
  /\ existsb typecheck_event
       (trace_of (build_sample (bare_world lookalike_sample) "samples/bare" init_vars))
     = false
  /\ outcome_of
       (vars_of (build_sample (bare_world lookalike_sample) "samples/bare" init_vars))
       "samples/bare" = Some "failed".
Proof. repeat (split; [evaluate|]). evaluate. Qed.

End StageClaims.

(** ** Further properties of the script *)
Module Extras.
Import Text Fs Harness Plan Batch Examples MoreExamples Design Stages.
Import TextFacts FsFacts HarnessFacts BatchFacts StageFacts.

(** *** Whole runs *)

(** The exit code of a run (lines 15, 24, 40, 61 and 65 under line 6): 1
    when no sample is found; the status of the root [npm ci] when it
    fails; the status of [pushd] when the first sample cannot be entered;
    and 1 in every other case, whether the first sample builds or not.
    It is never 0. *)
Theorem exit_code_of_run (w : World) :
  exit_code (run w) =
    match discover w with
    | [] => 1
    | p :: _ =>
        if Nat.eqb (root_npm_ci_status w) 0 then
          if Nat.eqb (pushd_status (unit_env w p)) 0 then 1
          else pushd_status (unit_env w p)
        else root_npm_ci_status w
    end
  /\ exit_code (run w) <> 0.
Proof.
  split; [|apply run_never_green].
  destruct (discover w) as [|p rest] eqn:Hd.
  - rewrite (run_no_samples w Hd). reflexivity.
  - destruct (Nat.eqb (root_npm_ci_status w) 0) eqn:Hroot.
    + apply Nat.eqb_eq in Hroot.
      rewrite (run_first_sample w p rest Hd Hroot).
      rewrite build_sample_fresh by reflexivity. cbv zeta.
      destruct (Nat.eqb (pushd_status (unit_env w p)) 0);
        [destruct (Nat.eqb (unit_status (unit_env w p)) 0)|]; reflexivity.
    + apply Nat.eqb_neq in Hroot.
      rewrite run_root_install_fails by congruence. reflexivity.
Qed.

(** No run prints the summary block of lines 72 to 89: the shell has
    ended before, in line 15, in line 24, or in the first turn of the
    loop. *)
Theorem summary_never_printed (w : World) :
  existsb summary_event (trace_of (run w)) = false.
Proof.
  destruct (discover w) as [|p rest] eqn:Hd.
  - rewrite (run_no_samples w Hd). reflexivity.
  - destruct (Nat.eq_dec (root_npm_ci_status w) 0) as [Hroot|Hroot].
    + rewrite (run_first_sample w p rest Hd Hroot). unfold trace_of at 1. cbn [fst].
      rewrite !existsb_app, header_no_summary, build_sample_no_summary.
      reflexivity.
    + rewrite run_root_install_fails by congruence.
      unfold trace_of. cbn [fst]. apply header_no_summary.
Qed.

(** A run starts [pushd] on the first sample found when the root
    installation succeeds, and on no other sample, however many were
    found.  It gets into a sample, and starts the [npm ci] of line 43
    there, exactly when that [pushd] succeeds as well: then it works in
    the first sample only, and otherwise in none. *)
Theorem only_first_sample_entered (w : World) :
  entered (trace_of (run w)) =
    match discover w with
    | [] => []
    | p :: _ => if Nat.eqb (root_npm_ci_status w) 0 then [p] else []
    end
  /\ worked_in (trace_of (run w)) =
    match discover w with
    | [] => []
    | p :: _ =>
        if Nat.eqb (root_npm_ci_status w) 0
           && Nat.eqb (pushd_status (unit_env w p)) 0
        then [p] else []
    end.
Proof.
  destruct (discover w) as [|p rest] eqn:Hd.
  - rewrite (run_no_samples w Hd). split; reflexivity.
  - destruct (Nat.eqb (root_npm_ci_status w) 0) eqn:Hroot.
    + apply Nat.eqb_eq in Hroot.
      rewrite (run_first_sample w p rest Hd Hroot). unfold trace_of at 1 3. cbn [fst].
      split.
      * rewrite !entered_app, entered_header, entered_build_sample. reflexivity.
      * rewrite (worked_in_skip _ _ (entered_header (p :: rest))).
        cbn [app worked_in andb]. apply worked_in_build_sample.
    + apply Nat.eqb_neq in Hroot.
      rewrite run_root_install_fails by congruence.
      unfold trace_of. cbn [fst andb]. split.
      * apply entered_header.
      * apply worked_in_none. apply entered_header.
Qed.

(** The only entry a run ever writes into the table of results is that
    of the first sample found, after a root installation and a [pushd]
    that succeeded; it is "success" when the condition of the build [if]
    returned 0 and "failed" otherwise. *)
Theorem only_first_outcome_recorded (w : World) (sample status : string) :
  outcome_of (vars_of (run w)) sample = Some status ->
  exists rest,
    discover w = sample :: rest
    /\ root_npm_ci_status w = 0
    /\ pushd_status (unit_env w sample) = 0
    /\ status = expected_outcome w sample.
Proof.
  unfold outcome_of, expected_outcome, builds.
  destruct (discover w) as [|p rest] eqn:Hd.
  - rewrite (run_no_samples w Hd). cbn. rewrite lookup_empty. discriminate.
  - destruct (Nat.eq_dec (root_npm_ci_status w) 0) as [Hroot|Hroot].
    + rewrite (run_first_sample w p rest Hd Hroot).
      rewrite build_sample_fresh by reflexivity. cbv zeta.
      destruct (Nat.eqb (pushd_status (unit_env w p)) 0) eqn:Hp.
      * apply Nat.eqb_eq in Hp.
        destruct (Nat.eqb (unit_status (unit_env w p)) 0) eqn:Hs;
          unfold vars_of;
          cbn [fst snd results record_success record_failure tracking_vars];
          (destruct (decide (p = sample)) as [<-|Hne];
           [rewrite lookup_insert_eq; intros [= <-]; exists rest; rewrite Hs; auto
           |rewrite lookup_insert_ne by exact Hne; rewrite lookup_empty; discriminate]).
      * unfold vars_of. cbn. rewrite lookup_empty. discriminate.
    + rewrite run_root_install_fails by congruence.
      cbn. rewrite lookup_empty. discriminate.
Qed.

Lemma only_first_outcome_recorded_witness :
  outcome_of (vars_of (run first_install_fails)) "samples/a" = Some "failed"
  /\ exists rest,
       discover first_install_fails = "samples/a" :: rest
       /\ root_npm_ci_status first_install_fails = 0
       /\ pushd_status (unit_env first_install_fails "samples/a") = 0
       /\ "failed" = expected_outcome first_install_fails "samples/a".
Proof.
  split; [vm_compute; reflexivity|].
  apply (only_first_outcome_recorded first_install_fails "samples/a" "failed").
  vm_compute. reflexivity.
Defined.

(** When the root installation succeeds and the first path found cannot
    be entered, the run ends in line 40 with the status of [pushd]:
    nothing is installed or built in it and nothing is recorded. *)
Theorem first_sample_not_entered (w : World) (p : string) (rest : list string) :
  discover w = p :: rest ->
  root_npm_ci_status w = 0 ->
  pushd_status (unit_env w p) <> 0 ->
  run w =
    ((run_header (p :: rest)
      ++ [Echo "🔨 Building samples..."; Echo ""]
      ++ unit_banner p)%list,
     tracking_vars (p :: rest),
     Exit (pushd_status (unit_env w p))).
Proof.
  intros Hd Hroot Hp.
  rewrite (run_first_sample w p rest Hd Hroot).
  rewrite build_sample_fresh by reflexivity. cbv zeta.
  apply Nat.eqb_neq in Hp. rewrite Hp. reflexivity.
Qed.

Lemma first_sample_not_entered_witness :
  run blank_in_name =
    ((run_header ["samples/my"; "sample"]
      ++ [Echo "🔨 Building samples..."; Echo ""]
      ++ unit_banner "samples/my")%list,
     tracking_vars ["samples/my"; "sample"],
     Exit (pushd_status (unit_env blank_in_name "samples/my"))).
Proof.
  apply (first_sample_not_entered blank_in_name "samples/my" ["sample"]).
  - vm_compute. reflexivity.
  - reflexivity.
  - vm_compute. lia.
Defined.

(** Lines 8 to 24: when samples are found, a run starts with the
    discovery banner, the number of samples found, one line for every
    sample in the order of the array, and the root installation. *)
Theorem run_starts_with_listing (w : World) :
  discover w <> [] ->
  exists rest,
    trace_of (run w) =
      ([Echo "🔍 Discovering samples..."; Exec "." FindSamples;
        Echo ("📋 Found " +:+ pretty (length (discover w)) +:+ " samples:")]
       ++ List.map (fun s => Echo ("  - " +:+ s)) (discover w)
       ++ [Echo ""; Echo "📦 Installing root dependencies..."; Exec "." NpmCi]
       ++ rest)%list.
Proof.
  intros Hd.
  destruct (discover w) as [|p l] eqn:E; [contradiction|].
  destruct (Nat.eq_dec (root_npm_ci_status w) 0) as [Hroot|Hroot].
  - rewrite (run_first_sample w p l E Hroot). unfold trace_of at 1. cbn [fst].
    eexists. unfold run_header. rewrite <- !app_assoc. reflexivity.
  - rewrite run_root_install_fails by congruence. rewrite E.
    exists []. unfold trace_of, run_header. cbn [fst]. reflexivity.
Qed.

Lemma run_starts_with_listing_witness :
  exists rest,
    trace_of (run two_good_samples) =
      ([Echo "🔍 Discovering samples..."; Exec "." FindSamples;
        Echo ("📋 Found " +:+ pretty (length (discover two_good_samples))
              +:+ " samples:")]
       ++ List.map (fun s => Echo ("  - " +:+ s)) (discover two_good_samples)
       ++ [Echo ""; Echo "📦 Installing root dependencies..."; Exec "." NpmCi]
       ++ rest)%list.
Proof.
  apply (run_starts_with_listing two_good_samples).
  vm_compute. discriminate.
Defined.

(** *** The loop *)

(** One turn of the loop (lines 37 to 69) comes to its end exactly when
    the sample can be entered and the counter it increments was not 0
    before; it ends the shell with the status of [pushd] when that fails,
    and with 1 when the counter was 0. *)
Theorem loop_turn_returns_iff (w : World) (sample : string) (v : Vars) :
  flow_of (build_sample w sample v) =
    (if Nat.eqb (pushd_status (unit_env w sample)) 0 then
       if Z.eqb (if builds w sample then successful v else failed v) 0
       then Exit 1 else Next tt
     else Exit (pushd_status (unit_env w sample)))
  /\ (flow_of (build_sample w sample v) = Next tt <->
      pushd_status (unit_env w sample) = 0
      /\ (if builds w sample then successful v else failed v) <> 0%Z).
Proof.
  assert (E : flow_of (build_sample w sample v) =
    (if Nat.eqb (pushd_status (unit_env w sample)) 0 then
       if Z.eqb (if builds w sample then successful v else failed v) 0
       then Exit 1 else Next tt
     else Exit (pushd_status (unit_env w sample)))).
  { rewrite build_sample_run. cbv zeta. unfold builds.
    destruct (Nat.eqb (pushd_status (unit_env w sample)) 0); [|reflexivity].
    destruct (Nat.eqb (unit_status (unit_env w sample)) 0);
      [destruct (Z.eqb (successful v) 0) | destruct (Z.eqb (failed v) 0)];
      reflexivity. }
  split; [exact E|]. rewrite E.
  destruct (Nat.eqb (pushd_status (unit_env w sample)) 0) eqn:Hp.
  - apply Nat.eqb_eq in Hp.
    destruct (Z.eqb (if builds w sample then successful v else failed v) 0) eqn:Hc.
    + apply Z.eqb_eq in Hc. split; [discriminate|]. intros [_ H]. contradiction.
    + apply Z.eqb_neq in Hc. split; auto.
  - apply Nat.eqb_neq in Hp. split; [discriminate|]. intros [H _]. contradiction.
Qed.

(** Once a sample is entered, lines 59 to 66 write its outcome into the
    table, also when the shell ends in that turn: "success" when the
    condition returned 0, "failed" otherwise.  The entries of the other
    samples and the array of samples are left as they were. *)
Theorem loop_turn_records (w : World) (sample : string) (v : Vars) :
  pushd_status (unit_env w sample) = 0 ->
  outcome_of (vars_of (build_sample w sample v)) sample =
    Some (expected_outcome w sample)
  /\ (forall other, other <> sample ->
        outcome_of (vars_of (build_sample w sample v)) other = outcome_of v other)
  /\ samples (vars_of (build_sample w sample v)) = samples v.
Proof.
  intros Hp.
  assert (E : vars_of (build_sample w sample v) = record_outcome w v sample).
  { rewrite build_sample_run. cbv zeta. rewrite Hp. cbn [Nat.eqb].
    unfold record_outcome, builds.
    destruct (Nat.eqb (unit_status (unit_env w sample)) 0);
      [destruct (Z.eqb (successful v) 0) | destruct (Z.eqb (failed v) 0)];
      reflexivity. }
  rewrite E. unfold outcome_of. split; [|split].
  - rewrite record_outcome_lookup.
    destruct (decide (sample = sample)); [reflexivity | contradiction].
  - intros other Hne. rewrite record_outcome_lookup.
    destruct (decide (sample = other)); [congruence | reflexivity].
  - apply record_outcome_samples.
Qed.

Lemma loop_turn_records_witness :
  outcome_of (vars_of (build_sample first_install_fails "samples/a" warm_vars))
    "samples/a" = Some (expected_outcome first_install_fails "samples/a")
  /\ (forall other, other <> "samples/a" ->
        outcome_of (vars_of (build_sample first_install_fails "samples/a" warm_vars))
          other = outcome_of warm_vars other)
  /\ samples (vars_of (build_sample first_install_fails "samples/a" warm_vars)) =
       samples warm_vars.
Proof.
  apply (loop_turn_records first_install_fails "samples/a" warm_vars).
  reflexivity.
Defined.

(** Started with both counters above 0 and far from the limit of the
    arithmetic, the loop of lines 36 to 70 goes through every sample of a
    list of samples that can be entered: it enters them one by one in the
    order of the list, adds one to the successes for every sample whose
    condition returned 0 and one to the failures for every other sample,
    and leaves the table with the outcome of every sample of the list and
    the entries of all other samples unchanged. *)
Theorem warm_loop_builds_every_sample (w : World) (l : list string) (v : Vars) :
  (forall s, In s l -> pushd_status (unit_env w s) = 0) ->
  (0 < successful v)%Z -> (0 < failed v)%Z ->
  (successful v + Z.of_nat (length l) < 2 ^ 63)%Z ->
  (failed v + Z.of_nat (length l) < 2 ^ 63)%Z ->
  flow_of (for_each l (build_sample w) v) = Next tt
  /\ entered (trace_of (for_each l (build_sample w) v)) = l
  /\ successful (vars_of (for_each l (build_sample w) v)) =
       (successful v + Z.of_nat (length (List.filter (builds w) l)))%Z
  /\ failed (vars_of (for_each l (build_sample w) v)) =
       (failed v + Z.of_nat (length (List.filter (fun s => negb (builds w s)) l)))%Z
  /\ (forall s, In s l ->
        outcome_of (vars_of (for_each l (build_sample w) v)) s =
          Some (expected_outcome w s))
  /\ (forall s, ~ In s l ->
        outcome_of (vars_of (for_each l (build_sample w) v)) s = outcome_of v s)
  /\ samples (vars_of (for_each l (build_sample w) v)) = samples v.
Proof.
  intros Hp Hs Hf Hsb Hfb.
  rewrite (loop_warm_run w l v Hp Hs Hf Hsb Hfb).
  unfold flow_of, trace_of, vars_of, outcome_of. cbn [fst snd].
  destruct (record_all_counters w l v) as [Es Ef]; try lia.
  split; [reflexivity|]. split; [apply entered_blocks|].
  split; [exact Es|]. split; [exact Ef|].
  split; [intros s Hin; apply record_all_lookup_in; exact Hin|].
  split; [intros s Hn; apply record_all_lookup_other; exact Hn|].
  apply record_all_samples.
Qed.

Lemma warm_loop_builds_every_sample_witness :
  flow_of (for_each ["samples/a"; "samples/b"] (build_sample first_install_fails)
             warm_vars) = Next tt
  /\ entered (trace_of (for_each ["samples/a"; "samples/b"]
                          (build_sample first_install_fails) warm_vars)) =
       ["samples/a"; "samples/b"].
Proof.
  destruct (warm_loop_builds_every_sample first_install_fails
              ["samples/a"; "samples/b"] warm_vars) as (Hflow & Hentered & _).
  - intros s [<-|[<-|[]]]; reflexivity.
  - reflexivity.
  - reflexivity.
  - vm_compute. reflexivity.
  - vm_compute. reflexivity.
  - split; [exact Hflow | exact Hentered].
Defined.

(** *** The summary *)

(** Lines 72 to 98 never return and never change a variable; they print
    the banner of the summary, and end the shell with exit code 1 when
    the counter of failures is above 0 and with exit code 0 otherwise,
    whatever the table and the other counters hold. *)
Theorem report_exit_code (v : Vars) :
  flow_of (report v) = Exit (if (0 <? failed v)%Z then 1 else 0)
  /\ vars_of (report v) = v
  /\ existsb summary_event (trace_of (report v)) = true
  /\ (exit_code (report v) = 0 <-> (failed v <= 0)%Z).
Proof.
  rewrite report_run. unfold exit_code, flow_of, vars_of, trace_of. cbn [fst snd].
  split; [reflexivity|]. split; [reflexivity|]. split; [reflexivity|].
  destruct (Z.ltb_spec 0 (failed v)); split; intros H1;
    first [lia | discriminate H1 | reflexivity].
Qed.

(** The status line of a sample (lines 83 to 88) carries the success
    marker exactly when the table holds "success" for the sample; a
    sample without entry, or with any other entry, gets the failure
    marker. *)
Theorem status_line_success_iff (res : gmap string string) (sample : string) :
  (result_line res sample = "  ✅ " +:+ sample <-> res !! sample = Some "success")
  /\ (result_line res sample = "  ❌ " +:+ sample <-> res !! sample <> Some "success").
Proof.
  assert (Hdiff : "  ✅ " +:+ sample <> "  ❌ " +:+ sample).
  { cbn. intros [=]. }
  assert (Hst : default "" (res !! sample) = "success" <->
                res !! sample = Some "success").
  { destruct (res !! sample) as [status|]; cbn; split; congruence. }
  unfold result_line.
  destruct (String.eqb_spec (default "" (res !! sample)) "success") as [He|Hne];
    (split; split; intros H); first [reflexivity | tauto | congruence].
Qed.

(** *** Discovery *)

(** The [find] of line 11 prints exactly the paths of the regular files
    named [package.json] that it meets below [samples] and that have no
    [/node_modules/] in their path: a manifest that is a symbolic link or
    a directory is not printed, and neither is one in a dependency cache
    at any depth. *)
Theorem find_stage_prints_manifests (cwd : list node) (start : node) (p : string) :
  lookup_entry "samples" cwd = Some start ->
  In p (find_samples cwd) <->
  exists n, In (p, n) (find_walk "samples" start)
            /\ node_name n = "package.json"
            /\ is_regular n = true
            /\ contains "/node_modules/" p = false.
Proof.
  intros Hstart. unfold find_samples. rewrite Hstart.
  rewrite List.in_map_iff. split.
  - intros ([q n] & <- & Hin). apply List.filter_In in Hin as [Hin Hm].
    unfold is_manifest in Hm. cbn [fst snd] in Hm.
    rewrite (fnmatch_literal "package.json" eq_refl) in Hm.
    rewrite fnmatch_inside_node_modules in Hm.
    apply andb_prop in Hm as [Hm Hreg]. apply andb_prop in Hm as [Hname Hnm].
    apply String.eqb_eq in Hname. apply negb_true_iff in Hnm.
    exists n. cbn [fst]. auto.
  - intros (n & Hin & Hname & Hreg & Hnm). exists (p, n). split; [reflexivity|].
    apply List.filter_In. split; [exact Hin|].
    unfold is_manifest. cbn [fst snd].
    rewrite (fnmatch_literal "package.json" eq_refl), fnmatch_inside_node_modules.
    rewrite Hnm, Hreg, <- Hname, String.eqb_refl. reflexivity.
Qed.

Lemma find_stage_prints_manifests_witness :
  lookup_entry "samples" two_sample_tree =
    Some (Dir "samples" [Dir "a" [File "package.json"]; Dir "b" [File "package.json"]])
  /\ (In "samples/a/package.json" (find_samples two_sample_tree) <->
      exists n,
        In ("samples/a/package.json", n)
           (find_walk "samples"
              (Dir "samples" [Dir "a" [File "package.json"]; Dir "b" [File "package.json"]]))
        /\ node_name n = "package.json"
        /\ is_regular n = true
        /\ contains "/node_modules/" "samples/a/package.json" = false).
Proof.
  split; [reflexivity|].
  apply (find_stage_prints_manifests two_sample_tree). reflexivity.
Defined.

(** When [samples] is missing from the working directory, or is not a
    directory, line 11 leaves the array empty and the run ends as a run
    without samples: the message of line 14 and exit code 1. *)
Theorem missing_samples_directory (w : World) :
  (forall name entries,
      lookup_entry "samples" (root_entries w) <> Some (Dir name entries)) ->
  discover w = []
  /\ run w =
       ([Echo "🔍 Discovering samples..."; Exec "." FindSamples;
         Echo "❌ No samples found!"], discovered_vars [], Exit 1).
Proof.
  intros H.
  assert (Hd : discover w = []).
  { unfold discover. rewrite (find_samples_no_directory _ H). reflexivity. }
  split; [exact Hd | exact (run_no_samples w Hd)].
Qed.

Lemma missing_samples_directory_witness :
  discover no_samples_directory = []
  /\ run no_samples_directory =
       ([Echo "🔍 Discovering samples..."; Exec "." FindSamples;
         Echo "❌ No samples found!"], discovered_vars [], Exit 1).
Proof.
  apply (missing_samples_directory no_samples_directory).
  intros name entries. vm_compute. discriminate.
Defined.

(** When the paths [find] prints are in ASCII and have no blank and no
    pattern character, the array of samples holds one element for every
    manifest found, in the order in which [find] met the manifests: what
    [sed] makes of its path.  (In ASCII a character is a byte, so that
    the [.] of the expression of [sed] stands for one byte in every
    locale.) *)
Theorem discovery_keeps_find_order (w : World) :
  List.Forall (fun p => plain p = true /\ ascii_only p = true)
    (find_samples (root_entries w)) ->
  discover w =
  List.map (sed_delete "/package.json") (find_samples (root_entries w)).
Proof.
  intros H. apply discover_plain.
  eapply List.Forall_impl; [|exact H]. intros p [Hp _]. exact Hp.
Qed.

Lemma discovery_keeps_find_order_witness :
  discover two_good_samples =
  List.map (sed_delete "/package.json") (find_samples (root_entries two_good_samples)).
Proof.
  apply (discovery_keeps_find_order two_good_samples).
  vm_compute. repeat constructor.
Defined.

(** When, moreover, the expression of [sed] matches nowhere inside the
    path of a directory, the samples are exactly the directories below
    [samples] (and [samples] itself) that hold a regular file
    [package.json] and whose manifest has no [/node_modules/] in its
    path.  The paths are in ASCII, as before. *)
Theorem discovery_finds_manifest_directories (w : World) (start : node) (d : string) :
  lookup_entry "samples" (root_entries w) = Some start ->
  List.Forall (fun p => plain p = true /\ ascii_only p = true)
    (find_samples (root_entries w)) ->
  (forall dir name entries,
      In (dir, Dir name entries) (find_walk "samples" start) ->
      no_early_match "/package.json" dir "/package.json" = true) ->
  In d (discover w) <->
  exists name entries,
    In (d, Dir name entries) (find_walk "samples" start)
    /\ In (File "package.json") entries
    /\ contains "/node_modules/" (child_path d "package.json") = false.
Proof.
  intros Hstart Hascii Hsed.
  assert (Hplain : List.Forall (fun p => plain p = true)
                     (find_samples (root_entries w))).
  { eapply List.Forall_impl; [|exact Hascii]. intros p [Hp _]. exact Hp. }
  rewrite (discover_plain w Hplain), List.in_map_iff. split.
  - intros (p & <- & Hp).
    apply (find_samples_spec _ start p Hstart) in Hp as (n & Hin & Hname & Hreg & Hnm).
    destruct (find_walk_inv start _ _ _ Hin) as [[_ ->]|(d0 & dn & des & Hd0 & Hn & ->)].
    + rewrite (lookup_entry_name _ _ _ Hstart) in Hname. discriminate Hname.
    + destruct n as [fname| |]; try discriminate Hreg. cbn in Hname. subst fname.
      cbn [node_name] in *. unfold child_path.
      change (d0 +:+ "/" +:+ "package.json") with (d0 +:+ "/package.json").
      rewrite (sed_delete_tail _ d0 _ (Hsed _ _ _ Hd0) eq_refl).
      exists dn, des. auto.
  - intros (name & entries & Hd & Hfile & Hnm).
    exists (child_path d "package.json"). split.
    + unfold child_path.
      change (d +:+ "/" +:+ "package.json") with (d +:+ "/package.json").
      exact (sed_delete_tail _ d _ (Hsed _ _ _ Hd) eq_refl).
    + apply (find_samples_spec _ start _ Hstart).
      exists (File "package.json"). repeat split; [|exact Hnm].
      exact (find_walk_entry start _ _ _ _ _ Hd Hfile).
Qed.

Lemma discovery_finds_manifest_directories_witness :
  In "samples/b" (discover two_good_samples) <->
  exists name entries,
    In ("samples/b", Dir name entries)
       (find_walk "samples"
          (Dir "samples" [Dir "a" [File "package.json"]; Dir "b" [File "package.json"]]))
    /\ In (File "package.json") entries
    /\ contains "/node_modules/" (child_path "samples/b" "package.json") = false.
Proof.
  apply (discovery_finds_manifest_directories two_good_samples).
  - reflexivity.
  - vm_compute. repeat constructor.
  - intros p name entries Hin.
    each_member Hin; first [discriminate Hin | injection Hin as <- _; reflexivity].
Defined.

(** An element of the array of samples that does not come from the
    expansion of a pattern is a word: it is not empty and has no space,
    tab or newline.  A directory with a blank in its name is never a
    sample. *)
Theorem discovered_word_has_no_blank (w : World) (p : string) :
  In p (discover w) ->
  (nonempty p = true /\ no_blank p = true)
  \/ (exists word, has_glob_meta word = true /\ In p (root_glob w word)).
Proof.
  unfold discover. intros Hin.
  apply in_flat_map in Hin as (word & Hword & Hin).
  unfold expand_word in Hin.
  destruct (has_glob_meta word) eqn:Hg.
  - right. exists word. auto.
  - left. destruct Hin as [<-|[]]. exact (word_split_words _ _ Hword).
Qed.

Lemma discovered_word_has_no_blank_witness :
  In "samples/my" (discover blank_in_name)
  /\ ((nonempty "samples/my" = true /\ no_blank "samples/my" = true)
      \/ (exists word, has_glob_meta word = true
                       /\ In "samples/my" (root_glob blank_in_name word))).
Proof.
  split; [vm_compute; left; reflexivity|].
  apply (discovered_word_has_no_blank blank_in_name "samples/my").
  vm_compute. left. reflexivity.
Defined.

(** *** The lenient type check *)

(** The [find] of lines 52 and 53 prints exactly the entries named
    [*.ts] of the sample, directories and hidden files included, that are
    not below the [node_modules] at the top of the sample; typed sources
    in a [node_modules] further down are printed. *)
Theorem typed_sources_found (entries : list node) (p : string) :
  In p (find_ts entries) <->
  exists n, In (p, n) (find_walk "." (Dir "." entries))
            /\ ends_with ".ts" (node_name n) = true
            /\ String.prefix "./node_modules/" p = false.
Proof.
  unfold find_ts. rewrite List.in_map_iff. split.
  - intros ([q n] & <- & Hin). apply List.filter_In in Hin as [Hin Hm].
    unfold is_ts_source in Hm. cbn [fst snd] in Hm.
    rewrite fnmatch_ts, fnmatch_node_modules in Hm.
    apply andb_prop in Hm as [Hts Hnm]. apply negb_true_iff in Hnm.
    exists n. cbn [fst]. auto.
  - intros (n & Hin & Hts & Hnm). exists (p, n). split; [reflexivity|].
    apply List.filter_In. split; [exact Hin|].
    unfold is_ts_source. cbn [fst snd].
    rewrite fnmatch_ts, fnmatch_node_modules, Hts, Hnm. reflexivity.
Qed.

(** A sample for which [npm run] lists nothing with "build", without
    [tsconfig.json], and with typed sources whose paths have no blank and
    no pattern character: the chain checks the syntax with
    [npx tsc --noEmit --skipLibCheck] over exactly the paths [find]
    prints, in that order, and the status of the compiler is the status
    of the chain. *)
Theorem lenient_check_over_found_files (dir : string) (u : UnitEnv) (v : Vars) :
  grep_q "build" (npm_run_stdout u) <> 0 ->
  test_f "tsconfig.json" (unit_entries u) = false ->
  find_ts (unit_entries u) <> [] ->
  List.Forall (fun p => plain p = true) (find_ts (unit_entries u)) ->
  strategy_chain dir u v =
    ([Exec dir NpmRun; Echo "  🔍 Checking TypeScript syntax"; Exec dir FindTs;
      Exec dir FindTs; Exec dir (TscFiles (find_ts (unit_entries u)))],
     v, Next (tsc_files_status u (find_ts (unit_entries u)))).
Proof.
  intros Hb Hc Hts Hplain.
  rewrite strategy_chain_plan.
  assert (Hfirst : first_applicable u = LenientTypeCheck).
  { unfold first_applicable. cbn [priority List.filter applicable].
    apply Nat.eqb_neq in Hb. rewrite Hb, Hc.
    destruct (find_ts (unit_entries u)); [contradiction | reflexivity]. }
  rewrite Hfirst. cbn [strategy_trace strategy_status].
  rewrite (lenient_files_plain u Hplain). reflexivity.
Qed.

Lemma lenient_check_over_found_files_witness :
  strategy_chain "samples/t" typed_sample init_vars =
    ([Exec "samples/t" NpmRun; Echo "  🔍 Checking TypeScript syntax";
      Exec "samples/t" FindTs; Exec "samples/t" FindTs;
      Exec "samples/t" (TscFiles (find_ts (unit_entries typed_sample)))],
     init_vars,
     Next (tsc_files_status typed_sample (find_ts (unit_entries typed_sample)))).
Proof.
  apply (lenient_check_over_found_files "samples/t" typed_sample init_vars).
  - vm_compute. lia.
  - vm_compute. reflexivity.
  - vm_compute. discriminate.
  - vm_compute. repeat constructor.
Defined.

(** *** The choice of a strategy *)

(** A sample whose manifest declares a [build] script, listed by
    [npm run], and that has a [tsconfig.json]: the design chooses the
    explicit build command although the type check of the project
    applies as well, and so does the script.  It runs [npm run build],
    runs no type check, and the condition of the build [if] holds exactly
    when the installation and [npm run build] both return 0. *)
Theorem declared_build_beats_type_check (dir : string) (u : UnitEnv) (v : Vars) :
  declares_build u = true -> npm_lists_scripts u ->
  has_compiler_config u = true ->
  chosen u = ExplicitBuild
  /\ applies u ProjectTypeCheck = true
  /\ strategy_chain dir u v =
       ([Exec dir NpmRun; Echo "  📝 Running npm run build";
         Exec dir NpmRunBuild], v, Next (npm_run_build_status u))
  /\ existsb typecheck_event (trace_of (build_condition dir u v)) = false
  /\ (flow_of (build_condition dir u v) = Next 0 <->
      npm_ci_status u = 0 /\ npm_run_build_status u = 0).
Proof.
  intros Hdecl Hlist Hconfig.
  pose proof (first_applicable_build u
                (declared_build_probe u (declares_build_script u Hdecl) Hlist))
    as Hfirst.
  split; [exact (chosen_build u Hdecl)|].
  split; [exact Hconfig|].
  split; [rewrite strategy_chain_plan, Hfirst; reflexivity|].
  rewrite build_condition_plan. unfold unit_trace, unit_status.
  rewrite Hfirst. unfold trace_of, flow_of. cbn [fst snd strategy_status].
  destruct (npm_ci_status u) as [|n]; cbn [Nat.eqb].
  - split; [reflexivity|]. split.
    + intros [= H]. auto.
    + intros [_ ->]. reflexivity.
  - split; [reflexivity|]. split.
    + intros [= H].
    + intros [H _]. discriminate H.
Qed.

Lemma declared_build_beats_type_check_witness :
  chosen built_sample = ExplicitBuild
  /\ applies built_sample ProjectTypeCheck = true
  /\ strategy_chain "samples/a" built_sample init_vars =
       ([Exec "samples/a" NpmRun; Echo "  📝 Running npm run build";
         Exec "samples/a" NpmRunBuild], init_vars,
        Next (npm_run_build_status built_sample))
  /\ existsb typecheck_event
       (trace_of (build_condition "samples/a" built_sample init_vars)) = false
  /\ (flow_of (build_condition "samples/a" built_sample init_vars) = Next 0 <->
      npm_ci_status built_sample = 0 /\ npm_run_build_status built_sample = 0).
Proof.
  apply (declared_build_beats_type_check "samples/a" built_sample init_vars).
  - vm_compute. reflexivity.
  - intros name [<-|[]]. exists "  build". split.
    + vm_compute. right. left. reflexivity.
    + vm_compute. reflexivity.
  - vm_compute. reflexivity.
Defined.

(** For a sample for which the probe of line 44 tells the truth (the
    listing of [npm run] has a line with "build" exactly when the
    manifest declares a [build] script) and whose directory has entries
    with names of their own, the chain of lines 44 to 57 runs the
    strategy the design chooses from the manifest and the directory, the
    first applicable one in priority order, and returns its status. *)
Theorem chain_follows_design (dir : string) (u : UnitEnv) (v : Vars) :
  probe_faithful u -> distinct_names (unit_entries u) ->
  strategy_chain dir u v =
    (strategy_trace dir u (chosen u), v, Next (strategy_status u (chosen u))).
Proof.
  intros Hprobe Hnames.
  rewrite strategy_chain_plan, (chosen_first_applicable u Hprobe Hnames).
  reflexivity.
Qed.

Lemma chain_follows_design_witness :
  chosen typed_sample = LenientTypeCheck
  /\ strategy_chain "samples/t" typed_sample init_vars =
       (strategy_trace "samples/t" typed_sample (chosen typed_sample), init_vars,
        Next (strategy_status typed_sample (chosen typed_sample))).
Proof.
  split; [vm_compute; reflexivity|].
  apply (chain_follows_design "samples/t" typed_sample init_vars).
  - split; intros H; vm_compute in H; discriminate H.
  - unfold distinct_names. vm_compute.
    repeat (constructor; [intros Hin; each_member Hin; discriminate Hin|]).
    constructor.
Defined.

End Extras.
